(** * FinOS dashboard page: file intake, analysis trigger, chat and colour helpers

    A shallow embedding of the handlers of [src/app/page.tsx] (the six-category
    page) and of its three-category sibling, which share every handler but
    [getCategoryColor].

    - JavaScript strings are sequences of UTF-16 code units: [list N].
    - React state is a record; a handler is a command that threads the state
      and emits the effects it performs (agent calls, timers, file reads,
      console output) as a trace.
    - An [async] handler is cut at its single [await]: a synchronous phase that
      issues the call, and a settlement phase run on the call's outcome. *)

From Stdlib Require Import QArith String Ascii.
From stdpp Require Import base list gmap.

Local Open Scope Z_scope.
Local Open Scope N_scope.

(** ** JavaScript strings *)

Abbreviation codeUnit := N (only parsing).
Abbreviation jsstring := (list N) (only parsing).

(** A string literal of the source, one code unit per character. *)
Definition js (s : string) : jsstring :=
  (fun c => N_of_ascii c) <$> list_ascii_of_string s.

Definition LF : codeUnit := 10.

(** [s === t] on strings. *)
Definition strictEq (s t : jsstring) : bool := bool_decide (s = t).

(** Truthiness of a string: every string but the empty one. *)
Definition truthy (s : jsstring) : bool :=
  match s with [] => false | _ :: _ => true end.

(** ECMAScript WhiteSpace and LineTerminator code points, the set stripped by
    [String.prototype.trim]: TAB, LF, VT, FF, CR, SP, NBSP, U+1680,
    U+2000..U+200A, LS, PS, U+202F, U+205F, U+3000 and the BOM. *)
Definition isWhiteSpace (c : codeUnit) : bool :=
  (c =? 9) || (c =? 10) || (c =? 11) || (c =? 12) || (c =? 13) || (c =? 32)
  || (c =? 160) || (c =? 5760) || ((8192 <=? c) && (c <=? 8202))
  || (c =? 8232) || (c =? 8233) || (c =? 8239) || (c =? 8287)
  || (c =? 12288) || (c =? 65279).

Fixpoint trimStart (s : jsstring) : jsstring :=
  match s with
  | [] => []
  | c :: r => if isWhiteSpace c then trimStart r else s
  end.

Definition trimEnd (s : jsstring) : jsstring := rev (trimStart (rev s)).

(** [s.trim()] *)
Definition trim (s : jsstring) : jsstring := trimEnd (trimStart s).

(** [s.split('\n')]: the pieces between line feeds; the empty string splits
    into one empty piece. *)
Fixpoint splitLF (s : jsstring) : list jsstring :=
  match s with
  | [] => [[]]
  | c :: r =>
      if c =? LF then [] :: splitLF r
      else match splitLF r with
           | l :: ls => (c :: l) :: ls
           | [] => [[c]]
           end
  end.

(** [parseCSV]: lines of the trimmed text, minus the header row. *)
Definition parseCSV (text : jsstring) : Z :=
  let lines := splitLF (trim text) in
  (Z.of_nat (length lines) - 1)%Z.

(** ** Vocabulary for statements about CSV texts *)

(** Lines joined by single line feeds, as a CSV file lays them out. *)
Fixpoint joinLines (ls : list jsstring) : jsstring :=
  match ls with
  | [] => []
  | [l] => l
  | l :: rest => l ++ LF :: joinLines rest
  end.

Fixpoint countLF (s : jsstring) : nat :=
  match s with
  | [] => 0%nat
  | c :: r => ((if (c =? LF)%N then 1 else 0) + countLF r)%nat
  end.

(** A line holds no line feed. *)
Definition isLine (l : jsstring) : Prop := LF ∉ l.

(** A line is blank when all of it is white space. *)
Definition blank (l : jsstring) : bool := forallb isWhiteSpace l.

(** ** Numbers

    A JavaScript number is an IEEE double: NaN, an infinity, or a finite value,
    which is a rational. Comparisons of doubles agree with the order of the
    values they denote and are false whenever an operand is NaN. *)

Inductive number : Type :=
  | NaN
  | NegInfinity
  | PosInfinity
  | Finite (q : Q).

Definition ofZ (z : Z) : number := Finite (inject_Z z).

(** [a >= b] *)
Definition number_ge (a b : number) : bool :=
  match a, b with
  | NaN, _ | _, NaN => false
  | PosInfinity, _ => true
  | _, NegInfinity => true
  | NegInfinity, _ => false
  | Finite _, PosInfinity => false
  | Finite x, Finite y => Qle_bool y x
  end.

(** [a < b] *)
Definition number_lt (a b : number) : bool :=
  match a, b with
  | NaN, _ | _, NaN => false
  | PosInfinity, _ => false
  | _, NegInfinity => false
  | NegInfinity, _ => true
  | Finite _, PosInfinity => true
  | Finite x, Finite y => negb (Qle_bool y x)
  end.

(** ** Score and category colours *)

Definition getScoreColor (score : number) : jsstring :=
  if number_ge score (ofZ 75) then js "#00bfa5"
  else if number_ge score (ofZ 50) then js "#ffd700"
  else js "#ff5252".

(** The bands as the page's legend names them. *)
Definition green : jsstring := js "#00bfa5".
Definition yellow : jsstring := js "#ffd700".
Definition red : jsstring := js "#ff5252".

(** What a property read on an object literal can yield: one of its own
    string values, or a member inherited from [Object.prototype] (a function,
    or the prototype object itself for [__proto__]). *)
Inductive JSValue : Type :=
  | VString (s : jsstring)
  | VInherited (name : jsstring).

Global Instance JSValue_eq_dec : EqDecision JSValue.
Proof. solve_decision. Defined.

Definition valueTruthy (v : JSValue) : bool :=
  match v with
  | VString s => truthy s
  | VInherited _ => true
  end.

(** [v || d], with [None] for [undefined]. *)
Definition orElse (v : option JSValue) (d : JSValue) : JSValue :=
  match v with
  | Some x => if valueTruthy x then x else d
  | None => d
  end.

Definition objectPrototypeNames : list jsstring :=
  [ js "constructor"; js "__defineGetter__"; js "__defineSetter__";
    js "hasOwnProperty"; js "__lookupGetter__"; js "__lookupSetter__";
    js "isPrototypeOf"; js "propertyIsEnumerable"; js "toString";
    js "valueOf"; js "__proto__"; js "toLocaleString" ].

(** [obj[key]] on an object literal whose own properties are [own]. *)
Definition getProperty (own : gmap (list N) (list N)) (key : jsstring)
  : option JSValue :=
  match own !! key with
  | Some v => Some (VString v)
  | None =>
      if bool_decide (key ∈ objectPrototypeNames) then Some (VInherited key)
      else None
  end.

(** [s.replace(from, to)] for one-unit strings: the first occurrence only. *)
Fixpoint replaceFirst (from to : N) (s : jsstring) : jsstring :=
  match s with
  | [] => []
  | c :: r => if c =? from then to :: r else c :: replaceFirst from to r
  end.

Definition SPACE : N := 32.
Definition UNDERSCORE : N := 95.

(** The table of [getCategoryColor]. *)
Definition colors : gmap (list N) (list N) :=
  list_to_map
    [ (js "dining", js "#ff6b6b");
      (js "shopping", js "#4ecdc4");
      (js "bill_payments", js "#45b7d1");
      (js "travel", js "#96ceb4");
      (js "investments", js "#1a237e");
      (js "others", js "#95a5a6") ].

Definition categoryKeys : list jsstring :=
  [ js "dining"; js "shopping"; js "bill_payments"; js "travel";
    js "investments"; js "others" ].

Definition defaultColor : jsstring := js "#95a5a6".

(** ASCII lower-casing of one code unit. *)
Definition asciiLower (c : N) : N :=
  if (65 <=? c) && (c <=? 90) then c + 32 else c.

Definition isAscii (s : jsstring) : Prop := Forall (fun c => c < 128) s.

Section CategoryColor.
(** [String.prototype.toLowerCase] is the platform's; all the page relies on
    is its action on ASCII text. *)
Variable toLowerCase : list N → list N.

Definition lowersAscii : Prop :=
  ∀ s, isAscii s → toLowerCase s = asciiLower <$> s.

Definition normalizeCategory (category : jsstring) : jsstring :=
  replaceFirst SPACE UNDERSCORE (toLowerCase category).

Definition getCategoryColor (category : jsstring) : JSValue :=
  orElse (getProperty colors (normalizeCategory category))
         (VString (js "#95a5a6")).
End CategoryColor.

(** ** Report payloads

    The two pages differ only in the shape of the report they display; the
    handlers never look inside it. *)

Record Transaction : Type := {
  date : jsstring;
  merchant : jsstring;
  amount : number;
  category : jsstring;
  subcategory : jsstring
}.

(** The six-category report of [src/app/page.tsx]. *)
Module Granular.
Record CategorySummary : Type := {
  total_amount : number;
  percentage : number;
  transaction_count : number
}.

Record Categories : Type := {
  dining : CategorySummary;
  shopping : CategorySummary;
  bill_payments : CategorySummary;
  travel : CategorySummary;
  investments : CategorySummary;
  others : CategorySummary
}.

Record MerchantBreakdown : Type := {
  mb_merchant : jsstring;
  mb_category : jsstring;
  mb_total_amount : number;
  mb_transaction_count : number;
  percentage_of_category : number;
  mb_insights : jsstring
}.

Record CutBackOpportunity : Type := {
  area : jsstring;
  current_spend : number;
  recommended_spend : number;
  potential_savings : number;
  actionable_advice : jsstring
}.

Record SpendNote : Type := {
  count : number;
  note_total_amount : number;
  description : jsstring
}.

Record SubscriptionAnalysis : Type := {
  total_subscriptions : number;
  monthly_cost : number;
  redundant_subscriptions : list jsstring
}.

Record HabitAudit : Type := {
  impulsive_purchases : SpendNote;
  high_cost_dining : SpendNote;
  subscription_analysis : SubscriptionAnalysis;
  cut_back_opportunities : list CutBackOpportunity
}.

Record DashboardData : Type := {
  financial_alignment_score : number;
  total_transactions : number;
  total_amount_all : number;
  category_summary : Categories;
  merchant_breakdown : list MerchantBreakdown;
  habit_audit : HabitAudit;
  transactions : list Transaction;
  report_insights : list jsstring;
  recommendations : list jsstring
}.
End Granular.

(** The three-category report of the sibling page. *)
Module Coarse.
Record CategorySummary : Type := {
  cs_amount : number;
  percentage : number;
  count : number
}.

Record Categories : Type := {
  survival : CategorySummary;
  lifestyle : CategorySummary;
  future : CategorySummary
}.

Record TopMerchant : Type := {
  tm_merchant : jsstring;
  tm_amount : number;
  tm_count : number
}.

Record DashboardData : Type := {
  financial_alignment_score : number;
  total_transactions : number;
  total_amount : number;
  category_summary : Categories;
  top_merchants : list TopMerchant;
  transactions : list Transaction
}.
End Coarse.

(** ** Files, chat turns and the agent's answers *)

Record File : Type := {
  name : jsstring;
  type : jsstring;
  fileText : jsstring   (* what [readAsText] decodes the file to *)
}.

Inductive Role : Type := user | assistant.

Record ChatMessage : Type := {
  role : Role;
  content : jsstring
}.

(** The agent's payload. The interface declares [dashboard_data] and
    [insights] as present, but the handlers test for their absence, so they
    are optional here, as [query_response] is. *)
Module ManagerAgentResponse.
Record t (D : Type) : Type := {
  workflow_status : jsstring;
  dashboard_data : option D;
  query_response : option jsstring;
  insights : option (list jsstring)
}.
Arguments workflow_status {D}.
Arguments dashboard_data {D}.
Arguments query_response {D}.
Arguments insights {D}.
End ManagerAgentResponse.

Definition FINOS_MANAGER_AGENT_ID : jsstring := js "6985a70a301c62c7ca2c7e05".

(** What a handler does to the world outside the React state. *)
Inductive Effect : Type :=
  | PreventDefault
  | ReadAsText (f : File)
  | SetTimeout (stage : jsstring) (ms : N)
  | CallAIAgent (message agent_id : jsstring)
  | ConsoleError (label : jsstring).

(** How a [try] body ends. *)
Inductive Completion : Type := Normal | Throw.

Record ChangeEvent : Type := { target_files : option (list File) }.
Record DragEvent : Type := { dataTransfer_files : list File }.

(** ** The page: state, commands and handlers *)

Section Page.
Variable DashboardData : Type.

(** The [useState] cells of [Home]. *)
Record State : Type := {
  file : option File;
  csvData : jsstring;
  rowCount : Z;
  analyzing : bool;
  analysisStage : jsstring;
  dashboardData : option DashboardData;
  insights : list jsstring;
  chatMessages : list ChatMessage;
  chatInput : jsstring;
  chatLoading : bool
}.

(** Modelled from the spec: the result type of [callAIAgent], whose module
    [@/lib/aiAgent] is not among the sources:
    [{success: bool, response?: {status: string, result: object}}]. *)
Record NormalizedResponse : Type := {
  status : jsstring;
  result : ManagerAgentResponse.t DashboardData
}.

Record AgentResult : Type := {
  success : bool;
  response : option NormalizedResponse
}.

(** How the awaited promise settles. *)
Inductive Outcome : Type :=
  | Rejected
  | Resolved (r : AgentResult).

(** A command runs on the state and yields a value, the next state and the
    effects performed, in order. *)
Definition Cmd (A : Type) : Type := State → A * State * list Effect.

Global Instance Cmd_ret : MRet Cmd := λ A x s, (x, s, []).
Global Instance Cmd_bind : MBind Cmd := λ A B k m s,
  let '(a, s1, e1) := m s in
  let '(b, s2, e2) := k a s1 in
  (b, s2, e1 ++ e2).

Definition get : Cmd State := λ s, (s, s, []).
Definition modify (f : State → State) : Cmd unit := λ s, (tt, f s, []).
Definition emit (e : Effect) : Cmd unit := λ s, (tt, s, [e]).

Definition setFile (v : option File) : Cmd unit :=
  modify (λ s, {| file := v; csvData := csvData s; rowCount := rowCount s;
    analyzing := analyzing s; analysisStage := analysisStage s;
    dashboardData := dashboardData s; insights := insights s;
    chatMessages := chatMessages s; chatInput := chatInput s;
    chatLoading := chatLoading s |}).

Definition setCsvData (v : jsstring) : Cmd unit :=
  modify (λ s, {| file := file s; csvData := v; rowCount := rowCount s;
    analyzing := analyzing s; analysisStage := analysisStage s;
    dashboardData := dashboardData s; insights := insights s;
    chatMessages := chatMessages s; chatInput := chatInput s;
    chatLoading := chatLoading s |}).

Definition setRowCount (v : Z) : Cmd unit :=
  modify (λ s, {| file := file s; csvData := csvData s; rowCount := v;
    analyzing := analyzing s; analysisStage := analysisStage s;
    dashboardData := dashboardData s; insights := insights s;
    chatMessages := chatMessages s; chatInput := chatInput s;
    chatLoading := chatLoading s |}).

Definition setAnalyzing (v : bool) : Cmd unit :=
  modify (λ s, {| file := file s; csvData := csvData s; rowCount := rowCount s;
    analyzing := v; analysisStage := analysisStage s;
    dashboardData := dashboardData s; insights := insights s;
    chatMessages := chatMessages s; chatInput := chatInput s;
    chatLoading := chatLoading s |}).

Definition setAnalysisStage (v : jsstring) : Cmd unit :=
  modify (λ s, {| file := file s; csvData := csvData s; rowCount := rowCount s;
    analyzing := analyzing s; analysisStage := v;
    dashboardData := dashboardData s; insights := insights s;
    chatMessages := chatMessages s; chatInput := chatInput s;
    chatLoading := chatLoading s |}).

Definition setDashboardData (v : option DashboardData) : Cmd unit :=
  modify (λ s, {| file := file s; csvData := csvData s; rowCount := rowCount s;
    analyzing := analyzing s; analysisStage := analysisStage s;
    dashboardData := v; insights := insights s;
    chatMessages := chatMessages s; chatInput := chatInput s;
    chatLoading := chatLoading s |}).

Definition setInsights (v : list jsstring) : Cmd unit :=
  modify (λ s, {| file := file s; csvData := csvData s; rowCount := rowCount s;
    analyzing := analyzing s; analysisStage := analysisStage s;
    dashboardData := dashboardData s; insights := v;
    chatMessages := chatMessages s; chatInput := chatInput s;
    chatLoading := chatLoading s |}).

(** [setChatMessages(prev => f prev)]: the updater sees the transcript
    current when it is applied. *)
Definition setChatMessages (f : list ChatMessage → list ChatMessage)
  : Cmd unit :=
  modify (λ s, {| file := file s; csvData := csvData s; rowCount := rowCount s;
    analyzing := analyzing s; analysisStage := analysisStage s;
    dashboardData := dashboardData s; insights := insights s;
    chatMessages := f (chatMessages s); chatInput := chatInput s;
    chatLoading := chatLoading s |}).

Definition setChatInput (v : jsstring) : Cmd unit :=
  modify (λ s, {| file := file s; csvData := csvData s; rowCount := rowCount s;
    analyzing := analyzing s; analysisStage := analysisStage s;
    dashboardData := dashboardData s; insights := insights s;
    chatMessages := chatMessages s; chatInput := v;
    chatLoading := chatLoading s |}).

Definition setChatLoading (v : bool) : Cmd unit :=
  modify (λ s, {| file := file s; csvData := csvData s; rowCount := rowCount s;
    analyzing := analyzing s; analysisStage := analysisStage s;
    dashboardData := dashboardData s; insights := insights s;
    chatMessages := chatMessages s; chatInput := chatInput s;
    chatLoading := v |}).

(** *** File intake *)

(** [reader.onload]: runs when the file's text has been decoded. *)
Definition onload (text : jsstring) : Cmd unit :=
  setCsvData text ;;
  let rows := parseCSV text in
  setRowCount rows.

Definition handleFileChange (e : ChangeEvent) : Cmd unit :=
  let selectedFile := target_files e ≫= head in
  match selectedFile with
  | Some f =>
      if strictEq (type f) (js "text/csv")
      then setFile (Some f) ;; emit (ReadAsText f)
      else mret tt
  | None => mret tt
  end.

Definition handleDrop (e : DragEvent) : Cmd unit :=
  emit PreventDefault ;;
  let droppedFile := head (dataTransfer_files e) in
  match droppedFile with
  | Some f =>
      if strictEq (type f) (js "text/csv")
      then setFile (Some f) ;; emit (ReadAsText f)
      else mret tt
  | None => mret tt
  end.

Definition handleDragOver (e : DragEvent) : Cmd unit := emit PreventDefault.

(** *** Analysis trigger *)

(** The test [result.success && result.response.status === 'success'] and,
    where it holds, [result.response.result]. Reading [status] of a missing
    [response] throws. *)
Inductive Verdict : Type :=
  | TestThrows
  | TestFalse
  | TestTrue (managerResponse : ManagerAgentResponse.t DashboardData).

Definition testResult (r : AgentResult) : Verdict :=
  if success r then
    match response r with
    | None => TestThrows
    | Some resp =>
        if strictEq (status resp) (js "success")
        then TestTrue (result resp)
        else TestFalse
    end
  else TestFalse.

(** The [try] body of [analyzeTransactions] from the [await] on. *)
Definition analyzeTransactions_try (o : Outcome) : Cmd Completion :=
  match o with
  | Rejected => mret Throw
  | Resolved r =>
      match testResult r with
      | TestTrue managerResponse =>
          match ManagerAgentResponse.dashboard_data managerResponse with
          | Some d =>
              setDashboardData (Some d) ;;
              setInsights
                (default [] (ManagerAgentResponse.insights managerResponse)) ;;
              mret Normal
          | None => mret Normal
          end
      | TestFalse => mret Normal
      | TestThrows => mret Throw
      end
  end.

(** Up to the [await]: [true] when a call is now pending. *)
Definition analyzeTransactions_start : Cmd bool :=
  s ← get;
  if negb (truthy (csvData s)) then mret false
  else
    setAnalyzing true ;;
    setAnalysisStage (js "Cleaning data...") ;;
    let message :=
      js "Analyze these transaction data:" ++ [LF; LF] ++ csvData s in
    emit (SetTimeout (js "Categorizing transactions...") 1000) ;;
    emit (SetTimeout (js "Calculating financial score...") 2000) ;;
    emit (CallAIAgent message FINOS_MANAGER_AGENT_ID) ;;
    mret true.

(** From the [await] on: the rest of [try], then [catch] and [finally]. *)
Definition analyzeTransactions_settle (o : Outcome) : Cmd unit :=
  c ← analyzeTransactions_try o;
  match c with
  | Throw => emit (ConsoleError (js "Analysis error:"))
  | Normal => mret tt
  end ;;
  setAnalyzing false ;;
  setAnalysisStage [].

(** One whole invocation, the call settling with [o]. *)
Definition analyzeTransactions (o : Outcome) : Cmd unit :=
  pending ← analyzeTransactions_start;
  if pending : bool then analyzeTransactions_settle o else mret tt.

(** A stage timer firing. *)
Definition stageTimer (stage : jsstring) : Cmd unit := setAnalysisStage stage.

(** *** Chat *)

Definition handleSendMessage_try (o : Outcome) : Cmd Completion :=
  match o with
  | Rejected => mret Throw
  | Resolved r =>
      match testResult r with
      | TestTrue managerResponse =>
          let responseText :=
            match ManagerAgentResponse.query_response managerResponse with
            | Some t => if truthy t then t else js "Analysis complete."
            | None => js "Analysis complete."
            end in
          let assistantMessage :=
            {| role := assistant; content := responseText |} in
          setChatMessages (λ prev, prev ++ [assistantMessage]) ;;
          mret Normal
      | TestFalse =>
          let errorMessage :=
            {| role := assistant;
               content :=
                 js "Sorry, I encountered an error processing your query." |} in
          setChatMessages (λ prev, prev ++ [errorMessage]) ;;
          mret Normal
      | TestThrows => mret Throw
      end
  end.

Definition handleSendMessage_start : Cmd bool :=
  s ← get;
  if negb (truthy (trim (chatInput s)))
     || negb (bool_decide (is_Some (dashboardData s)))
  then mret false
  else
    let userMessage := {| role := user; content := chatInput s |} in
    setChatMessages (λ prev, prev ++ [userMessage]) ;;
    setChatInput [] ;;
    setChatLoading true ;;
    let contextMessage :=
      js "Based on the analyzed transaction data, answer this query: "
      ++ chatInput s in
    emit (CallAIAgent contextMessage FINOS_MANAGER_AGENT_ID) ;;
    mret true.

Definition handleSendMessage_settle (o : Outcome) : Cmd unit :=
  c ← handleSendMessage_try o;
  match c with
  | Throw => emit (ConsoleError (js "Chat error:"))
  | Normal => mret tt
  end ;;
  setChatLoading false.

Definition handleSendMessage (o : Outcome) : Cmd unit :=
  pending ← handleSendMessage_start;
  if pending : bool then handleSendMessage_settle o else mret tt.

(** *** Vocabulary for statements *)

(** The call threw, or returned [success: false], or a status other than
    ["success"]. *)
Definition failed (o : Outcome) : Prop :=
  match o with
  | Rejected => True
  | Resolved r =>
      success r = false
      ∨ ∀ resp, response r = Some resp → status resp ≠ js "success"
  end.

Definition userTurn (q : jsstring) : ChatMessage :=
  {| role := user; content := q |}.
Definition assistantTurn (t : jsstring) : ChatMessage :=
  {| role := assistant; content := t |}.

Definition chatErrorText : jsstring :=
  js "Sorry, I encountered an error processing your query.".
Definition chatFallbackText : jsstring := js "Analysis complete.".
End Page.

Arguments file {DashboardData}.
Arguments csvData {DashboardData}.
Arguments rowCount {DashboardData}.
Arguments analyzing {DashboardData}.
Arguments analysisStage {DashboardData}.
Arguments dashboardData {DashboardData}.
Arguments insights {DashboardData}.
Arguments chatMessages {DashboardData}.
Arguments chatInput {DashboardData}.
Arguments chatLoading {DashboardData}.
Arguments status {DashboardData}.
Arguments result {DashboardData}.
Arguments success {DashboardData}.
Arguments response {DashboardData}.
Arguments Rejected {DashboardData}.
Arguments Resolved {DashboardData}.
Arguments onload {DashboardData}.
Arguments handleFileChange {DashboardData}.
Arguments handleDrop {DashboardData}.
Arguments handleDragOver {DashboardData}.
Arguments analyzeTransactions_start {DashboardData}.
Arguments analyzeTransactions_settle {DashboardData}.
Arguments analyzeTransactions {DashboardData}.
Arguments stageTimer {DashboardData}.
Arguments handleSendMessage_start {DashboardData}.
Arguments handleSendMessage_settle {DashboardData}.
Arguments handleSendMessage {DashboardData}.
Arguments failed {DashboardData}.

(** What running a command leaves behind. *)
Definition finalState {S A : Type} (r : A * S * list Effect) : S := r.1.2.
Definition effects {S A : Type} (r : A * S * list Effect) : list Effect := r.2.

(** The event's first file, if any, is not typed [text/csv]. *)
Definition notCsv (f : option File) : Prop :=
  ∀ f', f = Some f' → type f' ≠ js "text/csv".

(** The ASCII fragment of [toLowerCase]. *)
Definition asciiToLowerCase (s : jsstring) : jsstring := asciiLower <$> s.

(** The reply the chat shows for a payload: its [query_response] when there
    is one and it is not empty, the fallback otherwise. *)
Definition replyShown {D : Type} (m : ManagerAgentResponse.t D) : jsstring :=
  match ManagerAgentResponse.query_response m with
  | Some t => if bool_decide (t = []) then js "Analysis complete." else t
  | None => js "Analysis complete."
  end.

(** ** Sample data for the examples *)

Definition sampleSummary (pct : Z) : Granular.CategorySummary :=
  {| Granular.total_amount := ofZ (pct * 10);
     Granular.percentage := ofZ pct;
     Granular.transaction_count := ofZ 2 |}.

Definition sampleReport : Granular.DashboardData :=
  {| Granular.financial_alignment_score := ofZ 72;
     Granular.total_transactions := ofZ 12;
     Granular.total_amount_all := ofZ 1000;
     Granular.category_summary :=
       {| Granular.dining := sampleSummary 20;
          Granular.shopping := sampleSummary 20;
          Granular.bill_payments := sampleSummary 30;
          Granular.travel := sampleSummary 10;
          Granular.investments := sampleSummary 15;
          Granular.others := sampleSummary 5 |};
     Granular.merchant_breakdown := [];
     Granular.habit_audit :=
       {| Granular.impulsive_purchases :=
            {| Granular.count := ofZ 1; Granular.note_total_amount := ofZ 40;
               Granular.description := js "late-night orders" |};
          Granular.high_cost_dining :=
            {| Granular.count := ofZ 0; Granular.note_total_amount := ofZ 0;
               Granular.description := [] |};
          Granular.subscription_analysis :=
            {| Granular.total_subscriptions := ofZ 2;
               Granular.monthly_cost := ofZ 25;
               Granular.redundant_subscriptions := [] |};
          Granular.cut_back_opportunities := [] |};
     Granular.transactions := [];
     Granular.report_insights := [];
     Granular.recommendations := [] |}.

Definition pdfFile : File :=
  {| name := js "statement.pdf"; type := js "application/pdf";
     fileText := js "%PDF-1.7" |}.

Definition sampleTransaction (c : jsstring) : Transaction :=
  {| date := js "2024-01-02"; merchant := js "Metro"; amount := ofZ 120;
     category := c; subcategory := js "utilities" |}.

Definition csvFile : File :=
  {| name := js "january.csv"; type := js "text/csv";
     fileText := js "date,amount" ++ [LF] ++ js "2024-01-05,9.00" ++ [LF]
                 ++ js "2024-01-06,3.20" ++ [LF] |}.

Definition emptyCsvFile : File :=
  {| name := js "empty.csv"; type := js "text/csv"; fileText := [] |}.

(** The page right after load. *)
Definition initialState (D : Type) : State D :=
  {| file := None; csvData := []; rowCount := 0; analyzing := false;
     analysisStage := []; dashboardData := None; insights := [];
     chatMessages := []; chatInput := []; chatLoading := false |}.

(** A CSV has been read, a report is on screen, a question is typed. *)
Definition readyState (question : jsstring) : State Granular.DashboardData :=
  {| file := None; csvData := js "date,amount" ++ [LF] ++ js "2024-01-02,4.50";
     rowCount := 1; analyzing := false; analysisStage := [];
     dashboardData := Some sampleReport; insights := [js "Dining is high"];
     chatMessages := []; chatInput := question; chatLoading := false |}.

(** The call came back and the handlers take it for a success. *)
Definition successWith {D : Type} (m : ManagerAgentResponse.t D) : Outcome D :=
  Resolved {| success := true;
              response := Some {| status := js "success"; result := m |} |}.

Definition answerOnly (t : option jsstring)
  : ManagerAgentResponse.t Granular.DashboardData :=
  {| ManagerAgentResponse.workflow_status := js "completed";
     ManagerAgentResponse.dashboard_data := None;
     ManagerAgentResponse.query_response := t;
     ManagerAgentResponse.insights := Some [js "Travel is low"] |}.

(** ** What the page renders from the state *)

(** The Analyze button: [disabled={!file || analyzing}]. *)
Definition analyzeDisabled {D : Type} (s : State D) : bool :=
  negb (bool_decide (is_Some (file s))) || analyzing s.

(** Its label: the stage while analyzing, the fixed caption otherwise. *)
Definition analyzeButtonLabel {D : Type} (s : State D) : jsstring :=
  if analyzing s then analysisStage s else js "Analyze Transactions".

(** The chat input: [disabled={!dashboardData || chatLoading}]. *)
Definition chatInputDisabled {D : Type} (s : State D) : bool :=
  negb (bool_decide (is_Some (dashboardData s))) || chatLoading s.

(** The Send button:
    [disabled={!dashboardData || !chatInput.trim() || chatLoading}]. *)
Definition sendDisabled {D : Type} (s : State D) : bool :=
  negb (bool_decide (is_Some (dashboardData s)))
  || negb (truthy (trim (chatInput s)))
  || chatLoading s.

(** The chat input's [onChange]: [setChatInput(e.target.value)]. *)
Definition chatInput_onChange {D : Type} (value : jsstring) : Cmd D unit :=
  setChatInput D value.

(** The chat input's [onKeyPress], up to the [await]:
    [e.key === 'Enter' && handleSendMessage()]. *)
Definition chatInput_onKeyPress {D : Type} (key : jsstring) : Cmd D bool :=
  if strictEq key (js "Enter") then handleSendMessage_start else mret false.

(** The label of a category card: [key.replace('_', ' ')]. *)
Definition categoryLabel (key : jsstring) : jsstring :=
  replaceFirst UNDERSCORE SPACE key.

(** The badge of a transaction row:
    [getCategoryColor(txn.category.toLowerCase().replace(' ', '_'))]. *)
Definition transactionBadgeColor (toLowerCase : list N → list N)
    (txn : Transaction) : JSValue :=
  getCategoryColor toLowerCase
    (replaceFirst SPACE UNDERSCORE (toLowerCase (category txn))).

(** The badge of a merchant card: [getCategoryColor(merchant.category)]. *)
Definition merchantBadgeColor (toLowerCase : list N → list N)
    (m : Granular.MerchantBreakdown) : JSValue :=
  getCategoryColor toLowerCase (Granular.mb_category m).

(** An entry of the donut chart. *)
Module Chart.
Record Entry : Type := {
  name : jsstring;
  value : number;
  color : jsstring
}.
End Chart.

(** [getChartData] of the six-category page. *)
Definition getChartData (dashboardData : option Granular.DashboardData)
  : list Chart.Entry :=
  match dashboardData with
  | None => []
  | Some d =>
      let cs := Granular.category_summary d in
      [ {| Chart.name := js "Dining";
           Chart.value := Granular.percentage (Granular.dining cs);
           Chart.color := js "#ff6b6b" |};
        {| Chart.name := js "Shopping";
           Chart.value := Granular.percentage (Granular.shopping cs);
           Chart.color := js "#4ecdc4" |};
        {| Chart.name := js "Bill Payments";
           Chart.value := Granular.percentage (Granular.bill_payments cs);
           Chart.color := js "#45b7d1" |};
        {| Chart.name := js "Travel";
           Chart.value := Granular.percentage (Granular.travel cs);
           Chart.color := js "#96ceb4" |};
        {| Chart.name := js "Investments";
           Chart.value := Granular.percentage (Granular.investments cs);
           Chart.color := js "#1a237e" |};
        {| Chart.name := js "Others";
           Chart.value := Granular.percentage (Granular.others cs);
           Chart.color := js "#95a5a6" |} ]
  end.

(** ** The page in the browser's event loop

    Between events the page holds its state and what it has started and not
    yet seen finish: file reads, stage timers, and agent calls awaited by the
    analysis and by the chat. An event runs one handler, or lets one of the
    started things finish; reads, timers and calls finish in any order. *)

Record World (D : Type) : Type := {
  ui : State D;
  reads : list File;
  timers : list jsstring;
  analyses : nat;
  chats : nat
}.
Arguments ui {D}.
Arguments reads {D}.
Arguments timers {D}.
Arguments analyses {D}.
Arguments chats {D}.

Inductive PageEvent (D : Type) : Type :=
  | FileChosen (e : ChangeEvent)
  | FileDropped (e : DragEvent)
  | DraggedOver (e : DragEvent)
  | ReadLoaded (i : nat)
  | AnalyzeClicked
  | AnalysisSettled (o : Outcome D)
  | StageTimerFired (i : nat)
  | ChatTyped (value : jsstring)
  | ChatKeyPressed (key : jsstring)
  | SendClicked
  | ChatSettled (o : Outcome D).
Arguments FileChosen {D}.
Arguments FileDropped {D}.
Arguments DraggedOver {D}.
Arguments ReadLoaded {D}.
Arguments AnalyzeClicked {D}.
Arguments AnalysisSettled {D}.
Arguments StageTimerFired {D}.
Arguments ChatTyped {D}.
Arguments ChatKeyPressed {D}.
Arguments SendClicked {D}.
Arguments ChatSettled {D}.

Definition startedReads (es : list Effect) : list File :=
  omap (λ e, match e with ReadAsText f => Some f | _ => None end) es.

Definition startedTimers (es : list Effect) : list jsstring :=
  omap (λ e, match e with SetTimeout stage _ => Some stage | _ => None end) es.

Definition startedCalls (es : list Effect) : nat :=
  length (omap (λ e, match e with
                     | CallAIAgent m a => Some (m, a)
                     | _ => None
                     end) es).

Definition initialWorld (D : Type) : World D :=
  {| ui := initialState D; reads := []; timers := [];
     analyses := 0; chats := 0 |}.

(** One event; [None] when nothing of that kind is there to finish. *)
Definition dispatch {D : Type} (ev : PageEvent D) (w : World D)
  : option (World D) :=
  match ev with
  | FileChosen e =>
      let r := handleFileChange e (ui w) in
      Some {| ui := finalState r; reads := reads w ++ startedReads (effects r);
              timers := timers w; analyses := analyses w; chats := chats w |}
  | FileDropped e =>
      let r := handleDrop e (ui w) in
      Some {| ui := finalState r; reads := reads w ++ startedReads (effects r);
              timers := timers w; analyses := analyses w; chats := chats w |}
  | DraggedOver e =>
      let r := handleDragOver e (ui w) in
      Some {| ui := finalState r; reads := reads w; timers := timers w;
              analyses := analyses w; chats := chats w |}
  | ReadLoaded i =>
      f ← reads w !! i;
      let r := onload (fileText f) (ui w) in
      Some {| ui := finalState r; reads := delete i (reads w);
              timers := timers w; analyses := analyses w; chats := chats w |}
  | AnalyzeClicked =>
      let r := analyzeTransactions_start (ui w) in
      Some {| ui := finalState r; reads := reads w;
              timers := timers w ++ startedTimers (effects r);
              analyses := analyses w + startedCalls (effects r);
              chats := chats w |}
  | AnalysisSettled o =>
      match analyses w with
      | O => None
      | S n =>
          let r := analyzeTransactions_settle o (ui w) in
          Some {| ui := finalState r; reads := reads w; timers := timers w;
                  analyses := n; chats := chats w |}
      end
  | StageTimerFired i =>
      stage ← timers w !! i;
      let r := stageTimer stage (ui w) in
      Some {| ui := finalState r; reads := reads w;
              timers := delete i (timers w);
              analyses := analyses w; chats := chats w |}
  | ChatTyped value =>
      let r := chatInput_onChange value (ui w) in
      Some {| ui := finalState r; reads := reads w; timers := timers w;
              analyses := analyses w; chats := chats w |}
  | ChatKeyPressed key =>
      let r := chatInput_onKeyPress key (ui w) in
      Some {| ui := finalState r; reads := reads w; timers := timers w;
              analyses := analyses w;
              chats := chats w + startedCalls (effects r) |}
  | SendClicked =>
      let r := handleSendMessage_start (ui w) in
      Some {| ui := finalState r; reads := reads w; timers := timers w;
              analyses := analyses w;
              chats := chats w + startedCalls (effects r) |}
  | ChatSettled o =>
      match chats w with
      | O => None
      | S n =>
          let r := handleSendMessage_settle o (ui w) in
          Some {| ui := finalState r; reads := reads w; timers := timers w;
                  analyses := analyses w; chats := n |}
      end
  end%nat.

(** A run of events, the first first. *)
Fixpoint play {D : Type} (evs : list (PageEvent D)) (w : World D)
  : option (World D) :=
  match evs with
  | [] => Some w
  | ev :: rest => dispatch ev w ≫= play rest
  end.

Global Instance Role_eq_dec : EqDecision Role.
Proof. solve_decision. Defined.

(** How often a code unit occurs in a string. *)
Definition countUnit (u : N) (s : jsstring) : nat :=
  length (List.filter (N.eqb u) s).

(** How many turns of a role the transcript holds. *)
Definition turnsOf (r : Role) (l : list ChatMessage) : nat :=
  length (filter (λ m, role m = r) l).

(** A payload with a report and no insights. *)
Definition reportOnly : ManagerAgentResponse.t Granular.DashboardData :=
  {| ManagerAgentResponse.workflow_status := js "completed";
     ManagerAgentResponse.dashboard_data := Some sampleReport;
     ManagerAgentResponse.query_response := None;
     ManagerAgentResponse.insights := None |}.

(** A session: choose a file, let it load, analyze, ask, get an answer, ask
    again and have the call fail, with a stage timer firing late. *)
Definition sampleSession : list (PageEvent Granular.DashboardData) :=
  [ FileChosen {| target_files := Some [csvFile] |};
    ReadLoaded 0;
    AnalyzeClicked;
    AnalysisSettled (successWith reportOnly);
    ChatTyped (js "How much on rail?");
    SendClicked;
    StageTimerFired 1;
    ChatSettled (successWith (answerOnly (Some (js "12 on rail."))));
    ChatTyped (js "And on food?");
    ChatKeyPressed (js "Enter");
    ChatSettled Rejected ].

Definition sampleWorld : World Granular.DashboardData :=
  default (initialWorld _) (play sampleSession (initialWorld _)).

(** What holds of the page between any two events. *)
Definition Inv {D : Type} (w : World D) : Prop :=
  rowCount (ui w) = parseCSV (csvData (ui w))
  ∧ (csvData (ui w) ≠ [] ∨ reads w ≠ [] → is_Some (file (ui w)))
  ∧ (chatMessages (ui w) ≠ [] ∨ chats w ≠ 0%nat ∨ insights (ui w) ≠ []
     → is_Some (dashboardData (ui w)))
  ∧ (analyzing (ui w) = true → analyses w ≠ 0%nat)
  ∧ (chatLoading (ui w) = true → chats w ≠ 0%nat)
  ∧ (turnsOf assistant (chatMessages (ui w)) + chats w
     ≤ turnsOf user (chatMessages (ui w)))%nat.


(** ** Trimming and splitting: basic facts *)

Lemma isWhiteSpace_LF : isWhiteSpace LF = true.
Proof. reflexivity. Qed.

Lemma countLF_app s t : countLF (s ++ t) = (countLF s + countLF t)%nat.
Proof. induction s as [|c s IH]; simpl; [done|]. rewrite IH. lia. Qed.

Lemma countLF_rev s : countLF (rev s) = countLF s.
Proof.
  induction s as [|c s IH]; [done|].
  simpl. rewrite countLF_app, IH. simpl. lia.
Qed.

Lemma countLF_isLine l : isLine l → countLF l = 0%nat.
Proof.
  unfold isLine. induction l as [|c l IH]; [done|].
  intros H. simpl. rewrite IH by set_solver.
  destruct (N.eqb_spec c LF) as [->|]; [set_solver | done].
Qed.

Lemma splitLF_length s : length (splitLF s) = S (countLF s).
Proof.
  induction s as [|c s IH]; [done|].
  simpl. destruct (c =? LF); simpl.
  - by rewrite IH.
  - destruct (splitLF s); simpl in *; lia.
Qed.

Lemma parseCSV_countLF text : parseCSV text = Z.of_nat (countLF (trim text)).
Proof. unfold parseCSV. rewrite splitLF_length. lia. Qed.

Lemma trimStart_blank w s : blank w = true → trimStart (w ++ s) = trimStart s.
Proof.
  unfold blank. induction w as [|c w IH]; [done|]. simpl.
  intros [Hc Hw]%andb_prop. rewrite Hc. by apply IH.
Qed.

Lemma blank_rev w : blank (rev w) = blank w.
Proof.
  unfold blank. induction w as [|c w IH]; [done|]. simpl.
  rewrite forallb_app, IH. simpl. rewrite andb_true_r. apply andb_comm.
Qed.

Lemma trimEnd_blank s w : blank w = true → trimEnd (s ++ w) = trimEnd s.
Proof.
  intros Hw. unfold trimEnd. rewrite rev_app_distr.
  rewrite trimStart_blank; [done|]. by rewrite blank_rev.
Qed.

Lemma trimStart_blank_nil w : blank w = true → trimStart w = [].
Proof.
  intros Hw. rewrite <- (app_nil_r w). by rewrite trimStart_blank.
Qed.

(** Trimming ignores white space around the text. *)
Lemma trim_padding w1 t w2 :
  blank w1 = true → blank w2 = true → trim (w1 ++ t ++ w2) = trim t.
Proof.
  intros H1 H2. unfold trim. rewrite trimStart_blank by done. clear w1 H1.
  induction t as [|c t IH]; simpl.
  - by rewrite trimStart_blank_nil.
  - destruct (isWhiteSpace c); [done|].
    by rewrite app_comm_cons, trimEnd_blank.
Qed.

(** Where the first line holds something other than white space, trimming
    the front removes no line feed. *)
Lemma trimStart_countLF a c b :
  countLF a = 0%nat → isWhiteSpace c = false →
  countLF (trimStart (a ++ c :: b)) = countLF (a ++ c :: b).
Proof.
  intros Ha Hc. induction a as [|x a IH]; simpl.
  - by rewrite Hc.
  - simpl in Ha. destruct (isWhiteSpace x).
    + rewrite IH by lia. destruct (x =? LF); [lia | done].
    + done.
Qed.

Lemma trimEnd_countLF a c b :
  countLF b = 0%nat → isWhiteSpace c = false →
  countLF (trimEnd (a ++ c :: b)) = countLF (a ++ c :: b).
Proof.
  intros Hb Hc. unfold trimEnd. rewrite countLF_rev.
  rewrite rev_app_distr. simpl. rewrite <- app_assoc. simpl.
  rewrite trimStart_countLF by (by rewrite ?countLF_rev).
  rewrite !countLF_app. simpl. rewrite !countLF_rev. lia.
Qed.

(** Trimming the front stops at the latest at a unit that is not white
    space. *)
Lemma trimStart_keeps a c b :
  isWhiteSpace c = false → ∃ a', trimStart (a ++ c :: b) = a' ++ c :: b.
Proof.
  intros Hc. induction a as [|x a [a' IH]]; simpl.
  - exists []. by rewrite Hc.
  - destruct (isWhiteSpace x); [by exists a' | by exists (x :: a)].
Qed.

Lemma trim_countLF t a1 c1 b1 a2 c2 b2 :
  t = a1 ++ c1 :: b1 → countLF a1 = 0%nat → isWhiteSpace c1 = false →
  t = a2 ++ c2 :: b2 → countLF b2 = 0%nat → isWhiteSpace c2 = false →
  countLF (trim t) = countLF t.
Proof.
  intros E1 Ha1 Hc1 E2 Hb2 Hc2. unfold trim.
  destruct (trimStart_keeps a2 c2 b2 Hc2) as [a' Ha'].
  rewrite E2, Ha', trimEnd_countLF, <- Ha', <- E2 by done.
  rewrite E1. by apply trimStart_countLF.
Qed.

(** A line that is not blank splits at a unit that is not white space. *)
Lemma not_blank_split l :
  blank l = false → ∃ a c b, l = a ++ c :: b ∧ isWhiteSpace c = false.
Proof.
  unfold blank. induction l as [|x l IH]; simpl; [done|].
  destruct (isWhiteSpace x) eqn:Hx; simpl.
  - intros (a & c & b & -> & Hc)%IH. by exists (x :: a), c, b.
  - intros _. by exists [], x, l.
Qed.

Lemma countLF_app_zero a b : countLF (a ++ b) = 0%nat → countLF a = 0%nat ∧ countLF b = 0%nat.
Proof. rewrite countLF_app. lia. Qed.

Lemma joinLines_cons l ls :
  ls ≠ [] → joinLines (l :: ls) = l ++ LF :: joinLines ls.
Proof. by destruct ls. Qed.

Lemma joinLines_countLF l ls :
  Forall isLine (l :: ls) → countLF (joinLines (l :: ls)) = length ls.
Proof.
  revert l. induction ls as [|l' ls IH]; intros l Hall.
  - simpl. apply countLF_isLine. by inversion Hall.
  - rewrite joinLines_cons by done. rewrite countLF_app.
    inversion Hall as [|? ? Hl Hrest]; subst.
    rewrite (countLF_isLine l Hl).
    change (countLF (LF :: joinLines (l' :: ls)))
      with (S (countLF (joinLines (l' :: ls)))).
    by rewrite IH.
Qed.

(** The text ends with its last line. *)
Lemma joinLines_last l ls :
  ∃ pre, joinLines (l :: ls) = pre ++ default l (last ls).
Proof.
  revert l. induction ls as [|l' ls IH]; intros l.
  - by exists [].
  - rewrite joinLines_cons by done. destruct (IH l') as [pre Hpre].
    exists (l ++ LF :: pre). rewrite Hpre, <- app_assoc. simpl.
    do 3 f_equal. destruct ls as [|l'' ls]; [done|].
    rewrite !last_cons. by destruct (last ls).
Qed.

Lemma last_Forall {A} (P : A → Prop) (l : A) ls :
  Forall P (l :: ls) → P (default l (last ls)).
Proof.
  intros Hall. destruct (last ls) as [x|] eqn:E; simpl.
  - apply last_Some in E as [pre ->].
    inversion Hall as [|? ? _ H]; subst.
    apply Forall_app in H as [_ H]. by inversion H.
  - by inversion Hall.
Qed.

Lemma trim_nil_blank q : trim q = [] ↔ blank q = true.
Proof.
  assert (Hs : ∀ x, trimStart x = [] → blank x = true).
  { unfold blank. induction x as [|c x IH]; simpl; [done|].
    destruct (isWhiteSpace c) eqn:Hc; [by auto | done]. }
  assert (Hsub : ∀ x, blank x = false → blank (trimStart x) = false).
  { unfold blank. induction x as [|c x IH]; simpl; [done|].
    destruct (isWhiteSpace c) eqn:Hc; simpl; [by auto|]. by rewrite Hc. }
  split.
  - unfold trim, trimEnd. intros H.
    destruct (blank q) eqn:Hq; [done|]. apply Hsub in Hq.
    apply (f_equal (@rev N)) in H. rewrite rev_involutive in H. simpl in H.
    apply Hs in H. rewrite blank_rev in H. congruence.
  - intros H. unfold trim. by rewrite (trimStart_blank_nil q H).
Qed.

(** ** Row count *)

Lemma parseCSV_nonneg text : (0 ≤ parseCSV text)%Z.
Proof. rewrite parseCSV_countLF. lia. Qed.

(** C1, as the code has it: a text made of a header line and N data lines,
    joined by line feeds, whose header and last line are not blank, has row
    count N; the empty text has row count 0 (one empty piece, minus one). *)
Theorem parseCSV_header_and_rows :
  (∀ (header : jsstring) (rows : list jsstring),
      Forall isLine (header :: rows) →
      blank header = false →
      blank (default header (last rows)) = false →
      parseCSV (joinLines (header :: rows)) = Z.of_nat (length rows))
  ∧ parseCSV [] = 0%Z.
Proof.
  split; [|reflexivity].
  intros header rows Hlines Hh Hl.
  rewrite parseCSV_countLF. f_equal.
  rewrite <- (joinLines_countLF header rows Hlines).
  destruct (not_blank_split _ Hh) as (a1 & c1 & b1 & E1 & Hc1).
  destruct (not_blank_split _ Hl) as (a2 & c2 & b2 & E2 & Hc2).
  destruct (joinLines_last header rows) as [pre Hpre].
  assert (Hhead : ∃ rest, joinLines (header :: rows) = header ++ rest).
  { destruct rows; [exists []; simpl; by rewrite app_nil_r|].
    rewrite joinLines_cons by done. eauto. }
  destruct Hhead as [rest Hrest].
  apply (trim_countLF _ a1 c1 (b1 ++ rest) (pre ++ a2) c2 b2); try done.
  - rewrite Hrest, E1, <- app_assoc. done.
  - pose proof (countLF_isLine header) as H0. rewrite E1 in H0.
    apply countLF_app_zero in H0 as [H0 _]; [done|].
    rewrite <- E1. by inversion Hlines.
  - rewrite Hpre, E2, <- app_assoc. done.
  - pose proof (last_Forall isLine header rows Hlines) as H0.
    apply countLF_isLine in H0. rewrite E2 in H0.
    apply countLF_app_zero in H0 as [_ H0]. simpl in H0.
    destruct (c2 =? LF); [done | by simpl in H0].
Qed.

Lemma parseCSV_header_and_rows_witness :
  parseCSV (joinLines [js "date,merchant,amount"; js "2024-01-02,Cafe,4.50";
                       js "2024-01-03,Rail,12.00"]) = 2%Z
  ∧ parseCSV [] = 0%Z.
Proof.
  destruct parseCSV_header_and_rows as [Hrows Hempty].
  split; [|exact Hempty].
  apply (Hrows (js "date,merchant,amount")
               [js "2024-01-02,Cafe,4.50"; js "2024-01-03,Rail,12.00"]).
  - repeat constructor; unfold isLine; vm_compute;
      intros H; repeat (inversion H as [|? ? ? H']; clear H; rename H' into H).
  - reflexivity.
  - reflexivity.
Defined.

(** C1 as the spec words it fails: the empty text has row count 0, not -1;
    and a header with two data lines of which the last is empty has row
    count 1, the empty last line being trimmed away. *)
Lemma parseCSV_empty_is_not_minus_one :
  parseCSV [] ≠ (-1)%Z
  ∧ parseCSV (joinLines [js "date,amount"; js "2024-01-02,4.50"; []]) = 1%Z.
Proof. split; by vm_compute. Qed.

(** C9: white space before or after the text, trailing line feeds among it,
    leaves the row count as it is. *)
Theorem parseCSV_ignores_padding (t : jsstring) :
  (∀ w1 w2 : jsstring,
      blank w1 = true → blank w2 = true →
      parseCSV (w1 ++ t ++ w2) = parseCSV t)
  ∧ parseCSV (t ++ [LF]) = parseCSV t.
Proof.
  split.
  - intros w1 w2 H1 H2. unfold parseCSV. by rewrite trim_padding.
  - unfold parseCSV. by rewrite <- (trim_padding [] t [LF]).
Qed.

Lemma parseCSV_ignores_padding_witness :
  parseCSV (js "  " ++ (js "h" ++ [LF] ++ js "r") ++ [LF; 13; LF])
  = parseCSV (js "h" ++ [LF] ++ js "r").
Proof.
  apply (proj1 (parseCSV_ignores_padding (js "h" ++ [LF] ++ js "r"))
           (js "  ") [LF; 13; LF]); reflexivity.
Defined.

(** ** Score colour *)

Lemma number_ge_Finite x y :
  number_ge (Finite x) (Finite y) = true ↔ (y <= x)%Q.
Proof. apply Qle_bool_iff. Qed.

Lemma number_lt_Finite x y :
  number_lt (Finite x) (Finite y) = true ↔ (x < y)%Q.
Proof.
  simpl. rewrite negb_true_iff, <- not_true_iff_false, Qle_bool_iff.
  split; [apply Qnot_le_lt | apply Qlt_not_le].
Qed.

Lemma number_lt_not_ge a b : number_lt a b = true → number_ge a b = false.
Proof.
  destruct a, b; simpl; try done. by intros ->%negb_true_iff.
Qed.

Lemma number_ge_trans a b c :
  number_ge a b = true → number_ge b c = true → number_ge a c = true.
Proof.
  destruct a, b, c; simpl; try done.
  rewrite !Qle_bool_iff. intros H1 H2. by apply Qle_trans with q0.
Qed.

(** C6: at or above 75 the score is green, from 50 up to but not including
    75 it is yellow, below 50 it is red; 75 and 50 fall in the higher band. *)
Theorem getScoreColor_bands (score : number) :
  (number_ge score (ofZ 75) = true → getScoreColor score = green)
  ∧ (number_ge score (ofZ 50) = true → number_lt score (ofZ 75) = true →
     getScoreColor score = yellow)
  ∧ (number_lt score (ofZ 50) = true → getScoreColor score = red)
  ∧ getScoreColor (ofZ 75) = green
  ∧ getScoreColor (ofZ 50) = yellow.
Proof.
  unfold getScoreColor. repeat split; try reflexivity.
  - by intros ->.
  - intros H50 H75%number_lt_not_ge. by rewrite H75, H50.
  - intros H50%number_lt_not_ge.
    destruct (number_ge score (ofZ 75)) eqn:H75.
    + assert (number_ge score (ofZ 50) = true); [|congruence].
      by apply (number_ge_trans _ _ _ H75).
    + by rewrite H50.
Qed.

Lemma getScoreColor_bands_witness :
  getScoreColor (Finite (151 # 2)) = green
  ∧ getScoreColor (Finite (749 # 10)) = yellow
  ∧ getScoreColor (Finite (499 # 10)) = red.
Proof.
  split; [|split].
  - apply (proj1 (getScoreColor_bands (Finite (151 # 2)))). reflexivity.
  - apply (proj1 (proj2 (getScoreColor_bands (Finite (749 # 10)))));
      reflexivity.
  - apply (proj1 (proj2 (proj2 (getScoreColor_bands (Finite (499 # 10)))))).
    reflexivity.
Defined.

(** ** Category colour *)

Lemma isAscii_check s : forallb (λ c, c <? 128) s = true → isAscii s.
Proof.
  unfold isAscii. induction s as [|c s IH]; simpl; [constructor|].
  intros [Hc Hs]%andb_prop. constructor; [by apply N.ltb_lt | by apply IH].
Qed.

Lemma asciiToLowerCase_lowersAscii : lowersAscii asciiToLowerCase.
Proof. by intros s _. Qed.

Section CategoryColorFacts.
Variable toLowerCase : list N → list N.
Hypothesis lowers : lowersAscii toLowerCase.

Lemma normalizeCategory_ascii s :
  forallb (λ c, c <? 128) s = true →
  normalizeCategory toLowerCase s
  = replaceFirst SPACE UNDERSCORE (asciiLower <$> s).
Proof.
  intros H. unfold normalizeCategory. by rewrite lowers by by apply isAscii_check.
Qed.

Lemma getCategoryColor_ascii s :
  forallb (λ c, c <? 128) s = true →
  getCategoryColor toLowerCase s = getCategoryColor asciiToLowerCase s.
Proof.
  intros H. unfold getCategoryColor.
  by rewrite normalizeCategory_ascii by done.
Qed.

Lemma getCategoryColor_unlisted category :
  normalizeCategory toLowerCase category ∉ categoryKeys →
  normalizeCategory toLowerCase category ∉ objectPrototypeNames →
  getCategoryColor toLowerCase category = VString defaultColor.
Proof using Type.
  intros Hk Hp. unfold getCategoryColor, getProperty, colors.
  rewrite not_elem_of_list_to_map_1 by exact Hk.
  by rewrite bool_decide_eq_false_2.
Qed.
End CategoryColorFacts.

(** C7, as the code has it: each of the six keys has its own colour, and
    every name whose lower-cased form, first space turned into an underscore,
    is neither one of the six keys nor a member every object inherits gets
    the default colour. *)
Theorem getCategoryColor_table (toLowerCase : list N → list N) :
  lowersAscii toLowerCase →
  (getCategoryColor toLowerCase <$> categoryKeys
   = VString <$> [ js "#ff6b6b"; js "#4ecdc4"; js "#45b7d1"; js "#96ceb4";
                   js "#1a237e"; js "#95a5a6" ]
   ∧ NoDup (getCategoryColor toLowerCase <$> categoryKeys))
  ∧ ∀ category,
      normalizeCategory toLowerCase category ∉ categoryKeys →
      normalizeCategory toLowerCase category ∉ objectPrototypeNames →
      getCategoryColor toLowerCase category = VString defaultColor.
Proof.
  intros Hl.
  assert (E : getCategoryColor toLowerCase <$> categoryKeys
              = VString <$> [ js "#ff6b6b"; js "#4ecdc4"; js "#45b7d1";
                              js "#96ceb4"; js "#1a237e"; js "#95a5a6" ]).
  { unfold categoryKeys. rewrite !fmap_cons, fmap_nil.
    rewrite !(getCategoryColor_ascii _ Hl) by reflexivity. by vm_compute. }
  split; [split; [exact E|] | by apply getCategoryColor_unlisted].
  rewrite E. apply (bool_decide_unpack _). by vm_compute.
Qed.

Lemma getCategoryColor_table_witness :
  getCategoryColor asciiToLowerCase (js "groceries") = VString defaultColor.
Proof.
  apply (proj2 (getCategoryColor_table asciiToLowerCase
                  asciiToLowerCase_lowersAscii));
    apply (bool_decide_unpack _); by vm_compute.
Defined.

(** C7, second half as the spec words it, fails: a name that is not among the
    six keys gets a key's colour once lower-casing turns it into that key. *)
Lemma getCategoryColor_capitalised_not_default :
  ¬ (∀ toLowerCase : list N → list N,
       lowersAscii toLowerCase →
       ∀ category, category ∉ categoryKeys →
                   getCategoryColor toLowerCase category = VString defaultColor).
Proof.
  intros H.
  specialize (H asciiToLowerCase asciiToLowerCase_lowersAscii (js "Dining")).
  assert (Hn : js "Dining" ∉ categoryKeys).
  { apply (bool_decide_unpack _). by vm_compute. }
  specialize (H Hn). by vm_compute in H.
Qed.

(** ** Handlers *)

Ltac run_cmd :=
  unfold handleFileChange, handleDrop, onload,
    analyzeTransactions, analyzeTransactions_start, analyzeTransactions_settle,
    analyzeTransactions_try,
    handleSendMessage, handleSendMessage_start, handleSendMessage_settle,
    handleSendMessage_try,
    setFile, setCsvData, setRowCount, setAnalyzing, setAnalysisStage,
    setDashboardData, setInsights, setChatMessages, setChatInput,
    setChatLoading, finalState, effects,
    mbind, Cmd_bind, mret, Cmd_ret, modify, emit, get in *;
  simpl in *.

Lemma strictEq_false s t : s ≠ t → strictEq s t = false.
Proof. intros H. unfold strictEq. by apply bool_decide_eq_false_2. Qed.

Lemma truthy_false_nil s : truthy s = false ↔ s = [].
Proof. by destruct s. Qed.

Lemma truthy_trim q : blank q = false → truthy (trim q) = true.
Proof.
  intros H. destruct (trim q) eqn:E; [|done].
  apply trim_nil_blank in E. congruence.
Qed.

Section Handlers.
Context {D : Type}.
Implicit Types (s : State D) (o : Outcome D).

(** Whatever the state when a failed call settles, the report and the
    insights stay and the loading flag and stage label are cleared. *)
Lemma analyzeTransactions_settle_failed o s :
  failed o →
  let s' := finalState (analyzeTransactions_settle o s) in
  dashboardData s' = dashboardData s ∧ insights s' = insights s
  ∧ analyzing s' = false ∧ analysisStage s' = [].
Proof.
  intros Hf. destruct o as [|r]; [by run_cmd|].
  simpl in Hf. run_cmd. unfold testResult.
  destruct (success r); [|by run_cmd].
  destruct Hf as [?|Hf]; [done|].
  destruct (response r) as [resp|]; [|by run_cmd].
  rewrite strictEq_false by by apply Hf. by run_cmd.
Qed.

(** C10: with no CSV text loaded, [analyzeTransactions] returns at once:
    no agent call, no timer, no state written. *)
Theorem analyzeTransactions_without_csv o s :
  csvData s = [] → analyzeTransactions o s = (tt, s, []).
Proof. intros H. run_cmd. by rewrite H. Qed.

(** C3: a call that throws, or returns [success: false], or a status other
    than ["success"], leaves report and insights as they were before the
    invocation and clears the loading flag. *)
Theorem failed_analysis_keeps_report o s :
  csvData s ≠ [] → failed o →
  let s' := finalState (analyzeTransactions o s) in
  dashboardData s' = dashboardData s ∧ insights s' = insights s
  ∧ analyzing s' = false.
Proof.
  intros Hc Hf. destruct (truthy (csvData s)) eqn:Ht;
    [|by apply truthy_false_nil in Ht].
  destruct o as [|r]; [run_cmd; by rewrite Ht|].
  simpl in Hf. run_cmd. rewrite Ht. unfold testResult. simpl.
  destruct (success r); [|done].
  destruct Hf as [?|Hf]; [done|].
  destruct (response r) as [resp|]; [|done].
  by rewrite strictEq_false by by apply Hf.
Qed.

(** C4, as the code has it: a successful call whose payload carries
    [dashboard_data] replaces the report by it, whatever the report was,
    and the insights by the payload's, or by the empty list when it has
    none; a payload without [dashboard_data] changes neither. *)
Theorem successful_analysis_replaces_report
    (m : ManagerAgentResponse.t D) s :
  csvData s ≠ [] →
  let s' := finalState (analyzeTransactions (successWith m) s) in
  match ManagerAgentResponse.dashboard_data m with
  | Some d =>
      dashboardData s' = Some d
      ∧ insights s' = default [] (ManagerAgentResponse.insights m)
  | None =>
      dashboardData s' = dashboardData s ∧ insights s' = insights s
  end.
Proof.
  intros Hc. destruct (truthy (csvData s)) eqn:Ht;
    [|by apply truthy_false_nil in Ht].
  run_cmd. rewrite Ht. simpl.
  by destruct (ManagerAgentResponse.dashboard_data m).
Qed.

(** C8: a selection or a drop whose first file is missing or not typed
    [text/csv] writes no state, starts no read and reports nothing. *)
Theorem non_csv_file_ignored s :
  (∀ e : ChangeEvent,
      notCsv (target_files e ≫= head) → handleFileChange e s = (tt, s, []))
  ∧ (∀ e : DragEvent,
      notCsv (head (dataTransfer_files e)) →
      handleDrop e s = (tt, s, [PreventDefault])).
Proof.
  split; intros e He.
  - unfold handleFileChange. destruct (target_files e ≫= head) as [f|]; [|done].
    by rewrite strictEq_false by by apply He.
  - unfold handleDrop, mbind, Cmd_bind, emit.
    destruct (head (dataTransfer_files e)) as [f|]; [|done].
    by rewrite strictEq_false by by apply He.
Qed.

Lemma replyShown_truthy (m : ManagerAgentResponse.t D) :
  match ManagerAgentResponse.query_response m with
  | Some t => if truthy t then t else js "Analysis complete."
  | None => js "Analysis complete."
  end = replyShown m.
Proof.
  unfold replyShown.
  destruct (ManagerAgentResponse.query_response m) as [[|c t]|]; done.
Qed.

(** C5, as the code has it: with a question that is not all white space
    and a report on screen, the synchronous part appends one user turn
    holding the question and issues the one agent call; when the call
    succeeds, its settlement appends one assistant turn holding the
    payload's [query_response] if that is present and not empty, and
    ["Analysis complete."] otherwise. *)
Theorem chat_appends_question_then_answer
    (m : ManagerAgentResponse.t D) s (d : D) :
  blank (chatInput s) = false → dashboardData s = Some d →
  let started := handleSendMessage_start s in
  started.1.1 = true
  ∧ chatMessages (finalState started)
    = chatMessages s ++ [userTurn (chatInput s)]
  ∧ effects started
    = [CallAIAgent
         (js "Based on the analyzed transaction data, answer this query: "
          ++ chatInput s) FINOS_MANAGER_AGENT_ID]
  ∧ (∀ s2, chatMessages (finalState (handleSendMessage_settle (successWith m) s2))
           = chatMessages s2 ++ [assistantTurn (replyShown m)])
  ∧ chatMessages (finalState (handleSendMessage (successWith m) s))
    = chatMessages s ++ [userTurn (chatInput s); assistantTurn (replyShown m)].
Proof.
  intros Hq%truthy_trim Hd. run_cmd. rewrite Hq, Hd. simpl.
  rewrite replyShown_truthy, <- app_assoc. done.
Qed.
End Handlers.

Lemma failed_analysis_keeps_report_witness :
  let s := readyState [] in
  let o := Resolved {| success := false; response := None |} in
  let s' := finalState (analyzeTransactions o s) in
  dashboardData s' = Some sampleReport ∧ insights s' = [js "Dining is high"]
  ∧ analyzing s' = false.
Proof.
  apply (failed_analysis_keeps_report
           (Resolved {| success := false; response := None |})
           (readyState [])).
  - discriminate.
  - simpl. by left.
Defined.

Lemma analyzeTransactions_without_csv_witness :
  analyzeTransactions (successWith (answerOnly None))
                      (initialState Granular.DashboardData)
  = (tt, initialState Granular.DashboardData, []).
Proof. apply analyzeTransactions_without_csv. reflexivity. Defined.

Lemma successful_analysis_replaces_report_witness :
  let m := {| ManagerAgentResponse.workflow_status := js "completed";
              ManagerAgentResponse.dashboard_data := Some sampleReport;
              ManagerAgentResponse.query_response := None;
              ManagerAgentResponse.insights := None |} in
  let s' := finalState (analyzeTransactions (successWith m) (readyState [])) in
  dashboardData s' = Some sampleReport ∧ insights s' = [].
Proof.
  apply (successful_analysis_replaces_report
           {| ManagerAgentResponse.workflow_status := js "completed";
              ManagerAgentResponse.dashboard_data := Some sampleReport;
              ManagerAgentResponse.query_response := None;
              ManagerAgentResponse.insights := None |}
           (readyState [])).
  discriminate.
Defined.

(** C4 as the spec words it fails: a successful call whose payload has no
    [dashboard_data] leaves the insights as they were, though the payload
    has insights of its own. *)
Lemma successful_analysis_without_report_keeps_insights :
  let m := answerOnly (Some (js "You spent 40 on dining.")) in
  let s := readyState [] in
  let s' := finalState (analyzeTransactions (successWith m) s) in
  csvData s ≠ []
  ∧ ManagerAgentResponse.insights m = Some [js "Travel is low"]
  ∧ insights s' = [js "Dining is high"]
  ∧ insights s' ≠ default [] (ManagerAgentResponse.insights m)
  ∧ dashboardData s' ≠ ManagerAgentResponse.dashboard_data m.
Proof. by vm_compute. Qed.

Lemma non_csv_file_ignored_witness :
  handleFileChange {| target_files := Some [pdfFile] |} (readyState [])
  = (tt, readyState [], [])
  ∧ handleDrop {| dataTransfer_files := [pdfFile] |} (readyState [])
    = (tt, readyState [], [PreventDefault]).
Proof.
  destruct (non_csv_file_ignored (readyState [])) as [Hchange Hdrop].
  split.
  - apply Hchange. intros f [= <-]. by vm_compute.
  - apply Hdrop. intros f [= <-]. by vm_compute.
Defined.

Lemma chat_appends_question_then_answer_witness :
  let q := js "What was my total dining spend?" in
  let m := answerOnly (Some (js "You spent 40 on dining.")) in
  chatMessages (finalState (handleSendMessage (successWith m) (readyState q)))
  = [userTurn q; assistantTurn (js "You spent 40 on dining.")].
Proof.
  apply (chat_appends_question_then_answer
           (answerOnly (Some (js "You spent 40 on dining.")))
           (readyState (js "What was my total dining spend?")) sampleReport);
    reflexivity.
Defined.

(** C5 as the spec words it fails twice: a question made of white space only
    is not empty, yet nothing is appended for it; and an empty
    [query_response], though present, is shown as the fallback text. *)
Lemma chat_blank_question_and_empty_reply :
  (let s := readyState (js " ") in
   let m := answerOnly (Some (js "42")) in
   chatInput s ≠ [] ∧ is_Some (dashboardData s)
   ∧ handleSendMessage (successWith m) s = (tt, s, []))
  ∧ (let s := readyState (js "hi") in
     let m := answerOnly (Some []) in
     ManagerAgentResponse.query_response m = Some []
     ∧ (chatMessages (finalState (handleSendMessage (successWith m) s))
        = [userTurn (js "hi"); assistantTurn (js "Analysis complete.")])
     ∧ (chatMessages (finalState (handleSendMessage (successWith m) s))
        ≠ [userTurn (js "hi"); assistantTurn []])).
Proof. repeat split; try done; by vm_compute. Qed.

(** C2 on the code: when the agent call rejects, the transcript gains the
    user's turn and nothing else; the failure goes to the console only, and
    the error text that a failed result would show is not appended. *)
Example chat_rejected_call_appends_no_error_turn :
  let q := js "What was my total dining spend?" in
  let r := handleSendMessage Rejected (readyState q) in
  chatMessages (finalState r) = [userTurn q]
  ∧ (assistantTurn chatErrorText ∉ chatMessages (finalState r))
  ∧ chatLoading (finalState r) = false
  ∧ effects r
    = [CallAIAgent
         (js "Based on the analyzed transaction data, answer this query: " ++ q)
         FINOS_MANAGER_AGENT_ID;
       ConsoleError (js "Chat error:")].
Proof.
  repeat split; try reflexivity.
  vm_compute. intros H. inversion H as [|? ? ? H']; inversion H'.
Qed.

(** The sibling path: a call that returns a failure does append the error
    turn. *)
Example chat_failed_result_appends_error_turn :
  let q := js "What was my total dining spend?" in
  let o := Resolved {| success := false; response := None |} in
  chatMessages (finalState (handleSendMessage o (readyState q)))
  = [userTurn q; assistantTurn chatErrorText].
Proof. reflexivity. Qed.

(** ** Further properties of the row count *)

(** X1: the row count is never negative, whatever the text; in particular it
    is never -1. *)
Theorem parseCSV_never_negative (text : jsstring) :
  (0 ≤ parseCSV text)%Z ∧ parseCSV text ≠ (-1)%Z.
Proof. pose proof (parseCSV_nonneg text). lia. Qed.

(** X2: a text made of white space only (spaces, tabs, empty lines, a lone
    BOM) has row count 0, however many line feeds it holds. *)
Theorem parseCSV_blank_text (text : jsstring) :
  blank text = true → parseCSV text = 0%Z.
Proof.
  intros H. apply trim_nil_blank in H. unfold parseCSV. by rewrite H.
Qed.

Lemma parseCSV_blank_text_witness :
  parseCSV ([65279] ++ js "  " ++ [13; LF; LF; 9]) = 0%Z.
Proof. apply parseCSV_blank_text. reflexivity. Defined.

(** ** Further properties of the colours *)

Lemma getScoreColor_cases score :
  (number_ge score (ofZ 75) = true ∧ getScoreColor score = green)
  ∨ (number_ge score (ofZ 75) = false ∧ number_ge score (ofZ 50) = true
     ∧ getScoreColor score = yellow)
  ∨ (number_ge score (ofZ 75) = false ∧ number_ge score (ofZ 50) = false
     ∧ getScoreColor score = red).
Proof.
  unfold getScoreColor.
  destruct (number_ge score (ofZ 75)); [by left|].
  destruct (number_ge score (ofZ 50)); [right; by left | right; by right].
Qed.

(** X3: the score colour is one of the three, a score that is not a number
    is red, and the mapping is monotone: of two scores the higher is green
    whenever the lower is, and the lower is red whenever the higher is. *)
Theorem getScoreColor_monotone :
  (∀ score, getScoreColor score ∈ [green; yellow; red])
  ∧ getScoreColor NaN = red
  ∧ ∀ a b, number_ge a b = true →
      (getScoreColor b = green → getScoreColor a = green)
      ∧ (getScoreColor a = red → getScoreColor b = red).
Proof.
  split; [|split; [reflexivity|]].
  - intros score.
    destruct (getScoreColor_cases score) as [[_ ->]|[(_ & _ & ->)|(_ & _ & ->)]];
      set_solver.
  - intros a b Hab. split.
    + destruct (getScoreColor_cases b) as [[Hb _]|[(_ & _ & ->)|(_ & _ & ->)]];
        [|by vm_compute..].
      intros _. unfold getScoreColor.
      by rewrite (number_ge_trans _ _ _ Hab Hb).
    + destruct (getScoreColor_cases a) as [[_ ->]|[(_ & _ & ->)|(Ha1 & Ha2 & _)]];
        [by vm_compute..|].
      intros _.
      destruct (getScoreColor_cases b) as [[Hb _]|[(_ & Hb & _)|(_ & _ & ->)]];
        [| |done].
      * by rewrite (number_ge_trans _ _ _ Hab Hb) in Ha1.
      * by rewrite (number_ge_trans _ _ _ Hab Hb) in Ha2.
Qed.

Lemma getScoreColor_monotone_witness :
  getScoreColor (Finite (90 # 1)) = green
  ∧ getScoreColor (Finite (10 # 1)) = red.
Proof.
  destruct getScoreColor_monotone as (_ & _ & Hmono).
  split.
  - apply (proj1 (Hmono (Finite (90 # 1)) (Finite (80 # 1)) eq_refl)).
    reflexivity.
  - apply (proj2 (Hmono (Finite (20 # 1)) (Finite (10 # 1)) eq_refl)).
    reflexivity.
Defined.

Lemma asciiLower_idemp c : asciiLower (asciiLower c) = asciiLower c.
Proof.
  unfold asciiLower.
  destruct ((65 <=? c) && (c <=? 90)) eqn:E; [|by rewrite E].
  apply andb_prop in E as [H1%N.leb_le H2%N.leb_le].
  destruct ((65 <=? c + 32) && (c + 32 <=? 90)) eqn:E'; [|done].
  apply andb_prop in E' as [_ H%N.leb_le]. lia.
Qed.

Lemma asciiLower_ascii c : c < 128 → asciiLower c < 128.
Proof.
  unfold asciiLower. intros H.
  destruct ((65 <=? c) && (c <=? 90)) eqn:E; [|done].
  apply andb_prop in E as [_ H2%N.leb_le]. lia.
Qed.

Lemma isAscii_lower s : isAscii s → isAscii (asciiLower <$> s).
Proof.
  unfold isAscii. intros H. apply Forall_fmap.
  eapply Forall_impl; [exact H|]. intros c. apply asciiLower_ascii.
Qed.

Lemma isAscii_replaceFirst from to s :
  to < 128 → isAscii s → isAscii (replaceFirst from to s).
Proof.
  unfold isAscii. intros Hto. induction 1 as [|c s Hc Hs IH]; simpl; [constructor|].
  destruct (c =? from); constructor; done.
Qed.

Lemma lower_replaceFirst from to s :
  asciiLower to = to → asciiLower <$> s = s →
  asciiLower <$> replaceFirst from to s = replaceFirst from to s.
Proof.
  intros Hto. induction s as [|c s IH]; [done|].
  rewrite fmap_cons. intros [= Hc Hs]. cbn [replaceFirst].
  destruct (c =? from); rewrite fmap_cons.
  - by rewrite Hto, Hs.
  - by rewrite Hc, IH.
Qed.

Lemma replaceFirst_absent from to s : from ∉ s → replaceFirst from to s = s.
Proof.
  induction s as [|c s IH]; simpl; [done|]. intros H.
  destruct (N.eqb_spec c from) as [->|]; [set_solver|].
  rewrite IH; [done | set_solver].
Qed.

Lemma replaceFirst_back a b s :
  b ∉ s → replaceFirst b a (replaceFirst a b s) = s.
Proof.
  induction s as [|c s IH]; simpl; [done|]. intros H.
  destruct (N.eqb_spec c a) as [->|Hca]; simpl.
  - by rewrite N.eqb_refl.
  - destruct (N.eqb_spec c b) as [->|]; [set_solver|].
    rewrite IH; [done | set_solver].
Qed.

Lemma countUnit_replaceFirst_gen (a b : N) s :
  a ≠ b → a ∈ s →
  countUnit b (replaceFirst a b s) = S (countUnit b s).
Proof.
  unfold countUnit. intros Hab.
  induction s as [|c s IH]; cbn [replaceFirst List.filter].
  { intros H. by apply elem_of_nil in H. }
  intros H. destruct (N.eqb_spec c a) as [E|Hc]; cbn [List.filter].
  - subst c. rewrite N.eqb_refl.
    replace (b =? a) with false by (symmetry; by apply N.eqb_neq). done.
  - apply elem_of_cons in H as [E|H]; [by symmetry in E|].
    destruct (b =? c); cbn [length]; by rewrite IH.
Qed.

Lemma countUnit_replaceFirst s :
  SPACE ∈ s →
  countUnit UNDERSCORE (replaceFirst SPACE UNDERSCORE s)
  = S (countUnit UNDERSCORE s).
Proof. by apply countUnit_replaceFirst_gen. Qed.

Lemma replaceFirst_keeps_no_space s :
  SPACE ∈ replaceFirst SPACE UNDERSCORE s → SPACE ∈ s.
Proof.
  generalize SPACE UNDERSCORE. intros a b.
  induction s as [|c s IH]; cbn [replaceFirst]; [done|].
  destruct (N.eqb_spec c a) as [E|Hc]; [intros _; subst c; by left|].
  intros [E|H]%elem_of_cons; [subst c; by left|].
  apply elem_of_cons. right. by apply IH.
Qed.

Section CategoryColorMore.
Variable toLowerCase : list N → list N.
Hypothesis lowers : lowersAscii toLowerCase.

(** X4: names are matched without regard to ASCII case: two ASCII names that
    differ only in the case of their letters get the same colour. *)
Theorem getCategoryColor_ignores_case (s1 s2 : jsstring) :
  isAscii s1 → isAscii s2 → asciiLower <$> s1 = asciiLower <$> s2 →
  getCategoryColor toLowerCase s1 = getCategoryColor toLowerCase s2.
Proof.
  intros H1 H2 E. unfold getCategoryColor, normalizeCategory.
  by rewrite (lowers s1 H1), (lowers s2 H2), E.
Qed.

(** X5: the label a category card shows for a key, [key.replace('_', ' ')],
    leads back to the key: for a lower-case ASCII key without a space,
    normalising the label gives the key, so label and key get one colour. *)
Theorem categoryLabel_round_trip (key : jsstring) :
  isAscii key → asciiLower <$> key = key → SPACE ∉ key →
  normalizeCategory toLowerCase (categoryLabel key) = key
  ∧ getCategoryColor toLowerCase (categoryLabel key)
    = getCategoryColor toLowerCase key.
Proof.
  intros Ha Hl Hs.
  assert (E : normalizeCategory toLowerCase (categoryLabel key) = key).
  { unfold normalizeCategory, categoryLabel.
    rewrite lowers by (by apply isAscii_replaceFirst).
    rewrite lower_replaceFirst by done. by apply replaceFirst_back. }
  split; [done|]. unfold getCategoryColor. rewrite E.
  unfold normalizeCategory. rewrite lowers, Hl by done.
  by rewrite replaceFirst_absent.
Qed.

(** X6: a transaction row normalises the category before handing it to
    [getCategoryColor], which normalises it again. For an ASCII category the
    row's badge still has the colour [getCategoryColor] gives the category
    itself, unless the twice-normalised name is a member every object
    inherits. *)
Theorem transactionBadgeColor_agrees (txn : Transaction) :
  isAscii (category txn) →
  normalizeCategory toLowerCase (normalizeCategory toLowerCase (category txn))
    ∉ objectPrototypeNames →
  transactionBadgeColor toLowerCase txn
  = getCategoryColor toLowerCase (category txn).
Proof.
  intros Ha Hp. unfold transactionBadgeColor.
  change (replaceFirst SPACE UNDERSCORE (toLowerCase (category txn)))
    with (normalizeCategory toLowerCase (category txn)) in *.
  set (c := category txn) in *.
  set (n1 := normalizeCategory toLowerCase c) in *.
  assert (Hn1 : n1 = replaceFirst SPACE UNDERSCORE (asciiLower <$> c)).
  { unfold n1, normalizeCategory. by rewrite lowers. }
  assert (Hn1a : isAscii n1).
  { rewrite Hn1. apply isAscii_replaceFirst; [done|]. by apply isAscii_lower. }
  assert (Hn1l : asciiLower <$> n1 = n1).
  { rewrite Hn1. apply lower_replaceFirst; [done|].
    rewrite <- list_fmap_compose. apply list_fmap_ext.
    intros _ x _. apply asciiLower_idemp. }
  assert (Hn2 : normalizeCategory toLowerCase n1
                = replaceFirst SPACE UNDERSCORE n1).
  { unfold normalizeCategory. by rewrite lowers, Hn1l. }
  destruct (decide (SPACE ∈ n1)) as [Hin|Hout].
  - rewrite (getCategoryColor_unlisted toLowerCase n1); [|  |done].
    + symmetry. apply getCategoryColor_unlisted; fold n1.
      * intros Hk. revert Hin. clear -Hk.
        unfold categoryKeys in Hk.
        repeat (apply elem_of_cons in Hk as [->|Hk]; [by vm_compute; intros H; repeat (apply elem_of_cons in H as [H|H]; [discriminate H|]); by apply elem_of_nil in H|]).
        by apply elem_of_nil in Hk.
      * intros Hk. revert Hin. clear -Hk.
        unfold objectPrototypeNames in Hk.
        repeat (apply elem_of_cons in Hk as [->|Hk]; [by vm_compute; intros H; repeat (apply elem_of_cons in H as [H|H]; [discriminate H|]); by apply elem_of_nil in H|]).
        by apply elem_of_nil in Hk.
    + rewrite Hn2. intros Hk.
      assert (Hcount : (2 ≤ countUnit UNDERSCORE (replaceFirst SPACE UNDERSCORE n1))%nat).
      { rewrite countUnit_replaceFirst by done.
        rewrite Hn1 in Hin |- *.
        rewrite countUnit_replaceFirst by (by apply replaceFirst_keeps_no_space).
        lia. }
      revert Hcount. clear -Hk. unfold categoryKeys in Hk.
      repeat (apply elem_of_cons in Hk as [->|Hk]; [vm_compute; lia|]).
      by apply elem_of_nil in Hk.
  - unfold getCategoryColor at 1. rewrite Hn2.
    by rewrite replaceFirst_absent.
Qed.

(** X7: the donut chart and the category cards agree: the colour of every
    chart entry is the colour [getCategoryColor] gives the entry's name. *)
Theorem getChartData_colors_agree (d : Granular.DashboardData)
    (entry : Chart.Entry) :
  entry ∈ getChartData (Some d) →
  getCategoryColor toLowerCase (Chart.name entry) = VString (Chart.color entry).
Proof.
  unfold getChartData. intros H.
  repeat (apply elem_of_cons in H as [->|H];
          [simpl; rewrite (getCategoryColor_ascii _ lowers) by reflexivity;
           by vm_compute|]).
  by apply elem_of_nil in H.
Qed.
End CategoryColorMore.

Lemma getCategoryColor_ignores_case_witness :
  getCategoryColor asciiToLowerCase (js "TRAVEL")
  = getCategoryColor asciiToLowerCase (js "Travel").
Proof.
  apply (getCategoryColor_ignores_case asciiToLowerCase
           asciiToLowerCase_lowersAscii (js "TRAVEL") (js "Travel"));
    [by apply isAscii_check | by apply isAscii_check | reflexivity].
Defined.

Lemma categoryLabel_round_trip_witness :
  normalizeCategory asciiToLowerCase (categoryLabel (js "bill_payments"))
  = js "bill_payments"
  ∧ getCategoryColor asciiToLowerCase (categoryLabel (js "bill_payments"))
    = getCategoryColor asciiToLowerCase (js "bill_payments").
Proof.
  apply (categoryLabel_round_trip asciiToLowerCase
           asciiToLowerCase_lowersAscii (js "bill_payments"));
    [by apply isAscii_check | reflexivity |].
  apply (bool_decide_unpack _). by vm_compute.
Defined.

Lemma transactionBadgeColor_agrees_witness :
  transactionBadgeColor asciiToLowerCase (sampleTransaction (js "Bill Payments"))
  = getCategoryColor asciiToLowerCase (js "Bill Payments").
Proof.
  apply (transactionBadgeColor_agrees asciiToLowerCase
           asciiToLowerCase_lowersAscii
           (sampleTransaction (js "Bill Payments")));
    [by apply isAscii_check |].
  apply (bool_decide_unpack _). by vm_compute.
Defined.

Lemma getChartData_colors_agree_witness :
  getCategoryColor asciiToLowerCase (js "Bill Payments")
  = VString (js "#45b7d1").
Proof.
  apply (getChartData_colors_agree asciiToLowerCase
           asciiToLowerCase_lowersAscii sampleReport
           {| Chart.name := js "Bill Payments";
              Chart.value := ofZ 30;
              Chart.color := js "#45b7d1" |}).
  unfold getChartData.
  apply elem_of_cons; right. apply elem_of_cons; right.
  apply elem_of_cons; left. reflexivity.
Defined.

(** ** Further properties of the handlers *)

Ltac run_page :=
  unfold chatInput_onChange, chatInput_onKeyPress, stageTimer, handleDragOver,
    analyzeDisabled, analyzeButtonLabel, chatInputDisabled, sendDisabled,
    startedCalls, startedTimers, startedReads in *;
  run_cmd.

Lemma truthy_true_not_nil s : truthy s = true ↔ s ≠ [].
Proof. by destruct s. Qed.

Lemma strictEq_true s : strictEq s s = true.
Proof. unfold strictEq. by apply bool_decide_eq_true_2. Qed.

Lemma testResult_false {D : Type} (r : AgentResult D) :
  success r = false
  ∨ (∃ resp, response r = Some resp ∧ status resp ≠ js "success") →
  testResult D r = TestFalse D.
Proof.
  unfold testResult. intros [->|(resp & -> & H)]; [done|].
  destruct (success r); [|done]. by rewrite strictEq_false.
Qed.

Section HandlersMore.
Context {D : Type}.
Implicit Types (s : State D) (o : Outcome D).

(** X8: a drop does what a selection of the same first file does, after
    [preventDefault]: the same state, the same read started or none. *)
Theorem handleDrop_as_handleFileChange s (ed : DragEvent) (ec : ChangeEvent) :
  head (dataTransfer_files ed) = target_files ec ≫= head →
  finalState (handleDrop ed s) = finalState (handleFileChange ec s)
  ∧ effects (handleDrop ed s)
    = PreventDefault :: effects (handleFileChange ec s).
Proof.
  intros E. unfold handleDrop, handleFileChange. rewrite <- E.
  destruct (head (dataTransfer_files ed)) as [f|]; [|done].
  by destruct (strictEq (type f) (js "text/csv")).
Qed.

(** X9: choosing a CSV file stores its handle and starts one read, and until
    that read has loaded the text and row count are those of the file before:
    an analysis started in between sends the earlier text. *)
Theorem analysis_before_load_sends_earlier_text s (e : ChangeEvent) (f : File) :
  target_files e ≫= head = Some f → type f = js "text/csv" →
  csvData s ≠ [] →
  let r := handleFileChange e s in
  file (finalState r) = Some f
  ∧ effects r = [ReadAsText f]
  ∧ csvData (finalState r) = csvData s
  ∧ rowCount (finalState r) = rowCount s
  ∧ CallAIAgent (js "Analyze these transaction data:" ++ [LF; LF] ++ csvData s)
      FINOS_MANAGER_AGENT_ID
    ∈ effects (analyzeTransactions_start (finalState r)).
Proof.
  intros Hf Ht Hc%truthy_true_not_nil. unfold handleFileChange.
  rewrite Hf, Ht, strictEq_true. run_page. rewrite Hc. simpl.
  repeat split. do 2 (apply elem_of_cons; right). by apply elem_of_cons; left.
Qed.

(** X10: once an empty CSV file has been chosen and loaded, the row count is
    0 and the Analyze button is enabled, yet a click on it does nothing: no
    call, no flag, no message. *)
Theorem empty_file_makes_analyze_silent s (e : ChangeEvent) (f : File) o :
  target_files e ≫= head = Some f → type f = js "text/csv" →
  fileText f = [] → analyzing s = false →
  let s' := finalState (onload (fileText f) (finalState (handleFileChange e s))) in
  analyzeDisabled s' = false ∧ rowCount s' = 0%Z
  ∧ analyzeTransactions o s' = (tt, s', []).
Proof.
  intros Hf Ht Hx Ha. unfold handleFileChange.
  rewrite Hf, Ht, strictEq_true, Hx. run_page. by rewrite Ha.
Qed.

(** X11: an analysis, however its call settles, leaves the file, the CSV
    text, the row count and the whole chat (transcript, input, loading flag)
    as they were. *)
Theorem analyzeTransactions_frame o s :
  let s' := finalState (analyzeTransactions o s) in
  file s' = file s ∧ csvData s' = csvData s ∧ rowCount s' = rowCount s
  ∧ chatMessages s' = chatMessages s ∧ chatInput s' = chatInput s
  ∧ chatLoading s' = chatLoading s.
Proof.
  run_page. destruct (truthy (csvData s)); simpl; [|done].
  destruct o as [|r]; [done|]. simpl.
  destruct (testResult D r) as [| |m]; [done..|].
  by destruct (ManagerAgentResponse.dashboard_data m).
Qed.

(** X12: with CSV text loaded, an analysis makes exactly one agent call, to
    the fixed agent, whose message is the fixed instruction, two line feeds
    and the text as it is; it sets the two stage timers; and however the call
    settles it ends with the loading flag off and the stage label empty. *)
Theorem analyzeTransactions_one_call o s :
  csvData s ≠ [] →
  let r := analyzeTransactions o s in
  startedCalls (effects r) = 1%nat
  ∧ CallAIAgent (js "Analyze these transaction data:" ++ [LF; LF] ++ csvData s)
      FINOS_MANAGER_AGENT_ID ∈ effects r
  ∧ startedTimers (effects r)
    = [js "Categorizing transactions..."; js "Calculating financial score..."]
  ∧ analyzing (finalState r) = false
  ∧ analysisStage (finalState r) = [].
Proof.
  intros Hc%truthy_true_not_nil. run_page. rewrite Hc. simpl.
  assert (Hin : ∀ tl : list Effect,
    CallAIAgent (js "Analyze these transaction data:" ++ [LF; LF] ++ csvData s)
      FINOS_MANAGER_AGENT_ID
    ∈ SetTimeout (js "Categorizing transactions...") 1000
      :: SetTimeout (js "Calculating financial score...") 2000
      :: CallAIAgent
           (js "Analyze these transaction data:" ++ [LF; LF] ++ csvData s)
           FINOS_MANAGER_AGENT_ID :: tl).
  { intros tl. do 2 (apply elem_of_cons; right). by apply elem_of_cons; left. }
  destruct o as [|r]; [simpl; repeat split; apply Hin|]. simpl.
  destruct (testResult D r) as [| |m]; simpl; [repeat split; apply Hin..|].
  destruct (ManagerAgentResponse.dashboard_data m); simpl;
    repeat split; apply Hin.
Qed.

(** X13: while its call is awaited the Analyze button is disabled and reads
    "Cleaning data...", or the stage of the timer that fired last; once the
    call has settled, however it did, the button reads "Analyze Transactions",
    and stage timers that fire late do not change that. *)
Theorem analyze_button_label o s :
  csvData s ≠ [] →
  let s1 := finalState (analyzeTransactions_start s) in
  analyzeDisabled s1 = true
  ∧ analyzeButtonLabel s1 = js "Cleaning data..."
  ∧ (∀ stage, analyzeButtonLabel (finalState (stageTimer stage s1)) = stage)
  ∧ ∀ s2 stages,
      analyzeButtonLabel
        (foldl (λ st stage, finalState (stageTimer stage st))
               (finalState (analyzeTransactions_settle o s2)) stages)
      = js "Analyze Transactions".
Proof.
  intros Hc%truthy_true_not_nil. repeat split.
  - run_page. rewrite Hc. simpl. apply orb_true_r.
  - run_page. by rewrite Hc.
  - intros stage. run_page. by rewrite Hc.
  - intros s2 stages.
    assert (Ha : analyzing (finalState (analyzeTransactions_settle o s2)) = false).
    { run_page. destruct o as [|r]; [done|]. simpl.
      destruct (testResult D r) as [| |m]; [done..|].
      by destruct (ManagerAgentResponse.dashboard_data m). }
    revert Ha. generalize (finalState (analyzeTransactions_settle o s2)).
    induction stages as [|stage stages IH]; intros st Ha; simpl.
    + unfold analyzeButtonLabel. by rewrite Ha.
    + apply IH. by run_page.
Qed.

(** X14: whenever the Send button is enabled a click on it does start a
    call: it makes exactly one, clears the input and disables both the input
    and the button; and once a chat call has settled, however it did, the
    loading flag is off. *)
Theorem send_enabled_starts_call s :
  sendDisabled s = false →
  let r := handleSendMessage_start s in
  r.1.1 = true
  ∧ startedCalls (effects r) = 1%nat
  ∧ chatInput (finalState r) = []
  ∧ chatInputDisabled (finalState r) = true
  ∧ sendDisabled (finalState r) = true
  ∧ ∀ o s2, chatLoading (finalState (handleSendMessage_settle o s2)) = false.
Proof.
  unfold sendDisabled.
  intros [[Hd Hq]%orb_false_elim _]%orb_false_elim.
  run_page. rewrite Hd, Hq. simpl. repeat split; try apply orb_true_r.
  intros o s2. destruct o as [|r]; [done|]. simpl.
  by destruct (testResult D r).
Qed.

(** X15: a chat question, however its call settles, leaves the file, the CSV
    text, the row count, the analysis flags, the report and the insights as
    they were. *)
Theorem handleSendMessage_frame o s :
  let s' := finalState (handleSendMessage o s) in
  file s' = file s ∧ csvData s' = csvData s ∧ rowCount s' = rowCount s
  ∧ analyzing s' = analyzing s ∧ analysisStage s' = analysisStage s
  ∧ dashboardData s' = dashboardData s ∧ insights s' = insights s.
Proof.
  run_page.
  destruct (negb (truthy (trim (chatInput s)))
            || negb (bool_decide (is_Some (dashboardData s)))); simpl; [done|].
  destruct o as [|r]; [done|]. simpl. by destruct (testResult D r).
Qed.

(** X16: the call a question makes carries the fixed instruction and the
    question and nothing else: two states with the same question typed, each
    with some report, make the same call, whatever their reports and
    transcripts. *)
Theorem chat_call_ignores_report s1 s2 :
  chatInput s1 = chatInput s2 →
  is_Some (dashboardData s1) → is_Some (dashboardData s2) →
  effects (handleSendMessage_start s1) = effects (handleSendMessage_start s2).
Proof.
  intros Hq H1 H2. run_page. rewrite Hq.
  rewrite !bool_decide_eq_true_2 by done. simpl.
  by destruct (truthy (trim (chatInput s2))).
Qed.

(** X17: when the call returns a failure ([success] false, or a status other
    than ["success"]), the transcript gains the question and then one
    assistant turn with the fixed error text. *)
Theorem chat_failed_result_shows_error s (d : D) (r : AgentResult D) :
  blank (chatInput s) = false → dashboardData s = Some d →
  success r = false
  ∨ (∃ resp, response r = Some resp ∧ status resp ≠ js "success") →
  chatMessages (finalState (handleSendMessage (Resolved r) s))
  = chatMessages s ++ [userTurn (chatInput s); assistantTurn chatErrorText].
Proof.
  intros Hq%truthy_trim Hd Hr%testResult_false. run_page.
  rewrite Hq, Hd, Hr. simpl. by rewrite <- app_assoc.
Qed.

(** X18: when the call throws, or returns [success] true without a
    [response], the transcript gains the question and nothing more; the
    failure is written to the console and the loading flag is cleared. *)
Theorem chat_thrown_call_is_silent s (d : D) o :
  blank (chatInput s) = false → dashboardData s = Some d →
  o = Rejected ∨ o = Resolved {| success := true; response := None |} →
  let r := handleSendMessage o s in
  chatMessages (finalState r) = chatMessages s ++ [userTurn (chatInput s)]
  ∧ chatLoading (finalState r) = false
  ∧ effects r
    = [CallAIAgent
         (js "Based on the analyzed transaction data, answer this query: "
          ++ chatInput s) FINOS_MANAGER_AGENT_ID;
       ConsoleError (js "Chat error:")].
Proof.
  intros Hq%truthy_trim Hd Ho. run_page. rewrite Hq, Hd.
  by destruct Ho as [->| ->].
Qed.

(** X19: two questions in flight: both user turns are appended as they are
    asked, and the answers in the order the calls settle, not the order they
    were made; the loading flag goes off with the first answer. *)
Theorem two_questions_in_flight s (d : D) (q2 : jsstring)
    (m1 m2 : ManagerAgentResponse.t D) :
  blank (chatInput s) = false → dashboardData s = Some d →
  blank q2 = false →
  let s1 := finalState (handleSendMessage_start s) in
  let s2 := finalState (chatInput_onChange q2 s1) in
  let s3 := finalState (handleSendMessage_start s2) in
  let s4 := finalState (handleSendMessage_settle (successWith m2) s3) in
  let s5 := finalState (handleSendMessage_settle (successWith m1) s4) in
  chatMessages s3
  = chatMessages s ++ [userTurn (chatInput s); userTurn q2]
  ∧ chatLoading s4 = false
  ∧ chatMessages s5
    = chatMessages s ++ [userTurn (chatInput s); userTurn q2;
                         assistantTurn (replyShown m2);
                         assistantTurn (replyShown m1)].
Proof.
  intros Hq%truthy_trim Hd Hq2%truthy_trim. run_page.
  rewrite Hq, Hd. simpl. rewrite Hq2, Hd. simpl.
  rewrite !replyShown_truthy, <- !app_assoc. done.
Qed.
End HandlersMore.

Lemma handleDrop_as_handleFileChange_witness :
  finalState (handleDrop {| dataTransfer_files := [csvFile; pdfFile] |}
                (initialState Granular.DashboardData))
  = finalState (handleFileChange {| target_files := Some [csvFile] |}
                  (initialState Granular.DashboardData))
  ∧ effects (handleDrop {| dataTransfer_files := [csvFile; pdfFile] |}
               (initialState Granular.DashboardData))
    = PreventDefault
      :: effects (handleFileChange {| target_files := Some [csvFile] |}
                    (initialState Granular.DashboardData)).
Proof.
  apply (handleDrop_as_handleFileChange (initialState Granular.DashboardData)
           {| dataTransfer_files := [csvFile; pdfFile] |}
           {| target_files := Some [csvFile] |}).
  reflexivity.
Defined.

Lemma analysis_before_load_sends_earlier_text_witness :
  let r := handleFileChange {| target_files := Some [csvFile] |}
             (readyState []) in
  file (finalState r) = Some csvFile
  ∧ effects r = [ReadAsText csvFile]
  ∧ csvData (finalState r) = csvData (readyState [])
  ∧ rowCount (finalState r) = 1%Z
  ∧ CallAIAgent (js "Analyze these transaction data:" ++ [LF; LF]
                 ++ csvData (readyState []))
      FINOS_MANAGER_AGENT_ID
    ∈ effects (analyzeTransactions_start (finalState r)).
Proof.
  apply (analysis_before_load_sends_earlier_text (readyState [])
           {| target_files := Some [csvFile] |} csvFile);
    [reflexivity | reflexivity | discriminate].
Defined.

Lemma empty_file_makes_analyze_silent_witness :
  let s' := finalState
              (onload (fileText emptyCsvFile)
                 (finalState
                    (handleFileChange {| target_files := Some [emptyCsvFile] |}
                       (initialState Granular.DashboardData)))) in
  analyzeDisabled s' = false ∧ rowCount s' = 0%Z
  ∧ analyzeTransactions Rejected s' = (tt, s', []).
Proof.
  apply (empty_file_makes_analyze_silent
           (initialState Granular.DashboardData)
           {| target_files := Some [emptyCsvFile] |} emptyCsvFile Rejected);
    reflexivity.
Defined.

Lemma analyzeTransactions_one_call_witness :
  let r := analyzeTransactions Rejected (readyState []) in
  startedCalls (effects r) = 1%nat
  ∧ CallAIAgent (js "Analyze these transaction data:" ++ [LF; LF]
                 ++ csvData (readyState []))
      FINOS_MANAGER_AGENT_ID ∈ effects r
  ∧ startedTimers (effects r)
    = [js "Categorizing transactions..."; js "Calculating financial score..."]
  ∧ analyzing (finalState r) = false
  ∧ analysisStage (finalState r) = [].
Proof.
  apply (analyzeTransactions_one_call Rejected (readyState [])). discriminate.
Defined.

Lemma analyze_button_label_witness :
  analyzeButtonLabel
    (foldl (λ st stage, finalState (stageTimer stage st))
       (finalState (analyzeTransactions_settle Rejected (readyState [])))
       [js "Categorizing transactions..."; js "Calculating financial score..."])
  = js "Analyze Transactions".
Proof.
  apply (analyze_button_label Rejected (readyState [])). discriminate.
Defined.

Lemma send_enabled_starts_call_witness :
  let r := handleSendMessage_start (readyState (js "How much on rail?")) in
  r.1.1 = true
  ∧ startedCalls (effects r) = 1%nat
  ∧ chatInput (finalState r) = []
  ∧ chatInputDisabled (finalState r) = true
  ∧ sendDisabled (finalState r) = true
  ∧ ∀ (o : Outcome Granular.DashboardData) s2,
      chatLoading (finalState (handleSendMessage_settle o s2)) = false.
Proof.
  apply (send_enabled_starts_call (readyState (js "How much on rail?"))).
  reflexivity.
Defined.

Lemma chat_call_ignores_report_witness :
  effects (handleSendMessage_start (readyState (js "How much on rail?")))
  = effects
      (handleSendMessage_start
         (finalState
            (chatInput_onChange (js "How much on rail?")
               (finalState
                  (handleSendMessage (successWith (answerOnly None))
                     (readyState (js "Anything odd?"))))))).
Proof.
  apply chat_call_ignores_report.
  - reflexivity.
  - by eexists.
  - by eexists.
Defined.

Lemma chat_failed_result_shows_error_witness :
  chatMessages
    (finalState
       (handleSendMessage
          (Resolved {| success := true;
                       response := Some {| status := js "error";
                                           result := answerOnly None |} |})
          (readyState (js "How much on rail?"))))
  = [userTurn (js "How much on rail?"); assistantTurn chatErrorText].
Proof.
  apply (chat_failed_result_shows_error (readyState (js "How much on rail?"))
           sampleReport).
  - reflexivity.
  - reflexivity.
  - right. eexists. split; [reflexivity | discriminate].
Defined.

Lemma chat_thrown_call_is_silent_witness :
  let r := handleSendMessage
             (Resolved {| success := true; response := None |})
             (readyState (js "How much on rail?")) in
  chatMessages (finalState r) = [userTurn (js "How much on rail?")]
  ∧ chatLoading (finalState r) = false
  ∧ effects r
    = [CallAIAgent
         (js "Based on the analyzed transaction data, answer this query: "
          ++ js "How much on rail?") FINOS_MANAGER_AGENT_ID;
       ConsoleError (js "Chat error:")].
Proof.
  apply (chat_thrown_call_is_silent (readyState (js "How much on rail?"))
           sampleReport);
    [reflexivity | reflexivity | by right].
Defined.

Lemma two_questions_in_flight_witness :
  let s := readyState (js "How much on rail?") in
  let s1 := finalState (handleSendMessage_start s) in
  let s2 := finalState (chatInput_onChange (js "And on food?") s1) in
  let s3 := finalState (handleSendMessage_start s2) in
  let s4 := finalState
              (handleSendMessage_settle
                 (successWith (answerOnly (Some (js "40 on food."))))  s3) in
  let s5 := finalState
              (handleSendMessage_settle
                 (successWith (answerOnly (Some (js "12 on rail.")))) s4) in
  chatMessages s3
  = [userTurn (js "How much on rail?"); userTurn (js "And on food?")]
  ∧ chatLoading s4 = false
  ∧ chatMessages s5
    = [userTurn (js "How much on rail?"); userTurn (js "And on food?");
       assistantTurn (js "40 on food."); assistantTurn (js "12 on rail.")].
Proof.
  apply (two_questions_in_flight (readyState (js "How much on rail?"))
           sampleReport (js "And on food?")
           (answerOnly (Some (js "12 on rail.")))
           (answerOnly (Some (js "40 on food."))));
    reflexivity.
Defined.

(** ** The page between events *)

Lemma turnsOf_snoc r l m :
  turnsOf r (l ++ [m])
  = (turnsOf r l + (if decide (role m = r) then 1 else 0))%nat.
Proof.
  unfold turnsOf. rewrite filter_app, length_app. f_equal.
  rewrite filter_cons, filter_nil. by case_decide.
Qed.

Lemma not_nil_snoc {A} (l : list A) x : l ++ [x] ≠ [].
Proof. by destruct l. Qed.

Lemma not_nil_app_r {A} (l k : list A) : k ≠ [] → l ++ k ≠ [].
Proof. destruct l; [done|]. by intros _. Qed.

Section Loop.
Context {D : Type}.
Implicit Types (w : World D) (ev : PageEvent D).

Lemma Inv_initial : Inv (initialWorld D).
Proof.
  unfold Inv. simpl. repeat split; try done; try lia.
  - intros [?|?]; done.
  - intros [?|[?|?]]; done.
Qed.

Lemma dispatch_Inv ev w w' : dispatch ev w = Some w' → Inv w → Inv w'.
Proof.
  destruct w as [s rd tm an ch]. unfold Inv. simpl.
  intros Hd (I1 & I2 & I3 & I4 & I5 & I6).
  destruct ev as [e|e|e|i| |o|i|v|key| |o]; simpl in Hd.
  - (* FileChosen *)
    injection Hd as <-. simpl. unfold handleFileChange.
    destruct (target_files e ≫= head) as [f|]; simpl;
      [destruct (strictEq (type f) (js "text/csv")); simpl|];
      rewrite ?app_nil_r; repeat split; try done; try by eauto.
  - (* FileDropped *)
    injection Hd as <-. simpl. unfold handleDrop, mbind, Cmd_bind, emit.
    destruct (head (dataTransfer_files e)) as [f|]; simpl;
      [destruct (strictEq (type f) (js "text/csv")); simpl|];
      rewrite ?app_nil_r; repeat split; try done; try by eauto.
  - (* DraggedOver *)
    injection Hd as <-. simpl. repeat split; done.
  - (* ReadLoaded *)
    destruct (rd !! i) as [f|] eqn:Hi; simpl in Hd; [|done].
    injection Hd as <-. simpl. repeat split; try done.
    intros _. apply I2. right. intros ->. done.
  - (* AnalyzeClicked *)
    injection Hd as <-. run_page.
    destruct (truthy (csvData s)); simpl; rewrite ?app_nil_r;
      repeat split; try done; try lia.
    intros H. apply I4 in H. lia.
  - (* AnalysisSettled *)
    destruct an as [|n]; [done|]. injection Hd as <-. run_page.
    destruct o as [|r]; simpl; [repeat split; done|].
    destruct (testResult D r) as [| |m]; simpl; [repeat split; done..|].
    destruct (ManagerAgentResponse.dashboard_data m); simpl;
      repeat split; try done; try by eauto.
  - (* StageTimerFired *)
    destruct (tm !! i) as [stage|] eqn:Hi; simpl in Hd; [|done].
    injection Hd as <-. repeat split; done.
  - (* ChatTyped *)
    injection Hd as <-. repeat split; done.
  - (* ChatKeyPressed *)
    injection Hd as <-. unfold chatInput_onKeyPress.
    destruct (strictEq key (js "Enter"));
      [|simpl; rewrite Nat.add_0_r; repeat split; done].
    run_page.
    destruct (negb (truthy (trim (chatInput s)))
              || negb (bool_decide (is_Some (dashboardData s)))) eqn:G; simpl.
    + rewrite Nat.add_0_r. repeat split; done.
    + apply orb_false_elim in G as [_ G]. apply negb_false_iff in G.
      apply bool_decide_eq_true_1 in G.
      rewrite !turnsOf_snoc. simpl. repeat split; try done; try lia.
  - (* SendClicked *)
    injection Hd as <-. run_page.
    destruct (negb (truthy (trim (chatInput s)))
              || negb (bool_decide (is_Some (dashboardData s)))) eqn:G; simpl.
    + rewrite Nat.add_0_r. repeat split; done.
    + apply orb_false_elim in G as [_ G]. apply negb_false_iff in G.
      apply bool_decide_eq_true_1 in G.
      rewrite !turnsOf_snoc. simpl. repeat split; try done; try lia.
  - (* ChatSettled *)
    destruct ch as [|n]; [done|]. injection Hd as <-. run_page.
    assert (Hrep : is_Some (dashboardData s)) by (apply I3; right; left; lia).
    destruct o as [|r]; simpl; [repeat split; try done; lia|].
    destruct (testResult D r) as [| |m]; simpl; rewrite ?turnsOf_snoc; simpl;
      repeat split; try done; lia.
Qed.

Lemma play_Inv evs w w' : play evs w = Some w' → Inv w → Inv w'.
Proof.
  revert w. induction evs as [|ev evs IH]; intros w; simpl.
  - by intros [= <-].
  - destruct (dispatch ev w) as [w1|] eqn:E; simpl; [|done].
    intros H Hw. apply (IH w1 H). by apply (dispatch_Inv ev w).
Qed.
End Loop.

Section LoopFacts.
Context {D : Type}.
Implicit Types (w : World D) (ev : PageEvent D).


(** X20: in every state the page can reach, the row count shown is the row
    count of the CSV text held, and is not negative. *)
Theorem reachable_rowCount (evs : list (PageEvent D)) w :
  play evs (initialWorld D) = Some w →
  rowCount (ui w) = parseCSV (csvData (ui w)) ∧ (0 ≤ rowCount (ui w))%Z.
Proof.
  intros H. destruct (play_Inv evs _ _ H Inv_initial) as [I1 _].
  split; [done|]. rewrite I1. apply parseCSV_nonneg.
Qed.

(** X21: the page never holds CSV text, nor awaits a file read, without a
    file handle; so whenever an analysis could make its call the file card
    is on screen. *)
Theorem reachable_text_has_file (evs : list (PageEvent D)) w :
  play evs (initialWorld D) = Some w →
  csvData (ui w) ≠ [] ∨ reads w ≠ [] → is_Some (file (ui w)).
Proof.
  intros H. by destruct (play_Inv evs _ _ H Inv_initial) as (_ & I2 & _).
Qed.

(** X22: a transcript that is not empty, a chat call awaited, or insights
    that are not empty each mean a report is on screen. *)
Theorem reachable_chat_has_report (evs : list (PageEvent D)) w :
  play evs (initialWorld D) = Some w →
  chatMessages (ui w) ≠ [] ∨ chats w ≠ 0%nat ∨ insights (ui w) ≠ [] →
  is_Some (dashboardData (ui w)).
Proof.
  intros H. by destruct (play_Inv evs _ _ H Inv_initial) as (_ & _ & I3 & _).
Qed.


(** X24: the transcript never holds more assistant turns than user turns;
    the user turns not yet answered are at least the chat calls awaited. *)
Theorem reachable_turns (evs : list (PageEvent D)) w :
  play evs (initialWorld D) = Some w →
  (turnsOf assistant (chatMessages (ui w)) + chats w
   ≤ turnsOf user (chatMessages (ui w)))%nat.
Proof.
  intros H.
  by destruct (play_Inv evs _ _ H Inv_initial) as (_ & _ & _ & _ & _ & I6).
Qed.

End LoopFacts.

Lemma sampleSession_plays :
  play sampleSession (initialWorld Granular.DashboardData) = Some sampleWorld.
Proof. by vm_compute. Qed.

Lemma reachable_rowCount_witness :
  rowCount (ui sampleWorld) = parseCSV (csvData (ui sampleWorld))
  ∧ (0 ≤ rowCount (ui sampleWorld))%Z.
Proof. apply (reachable_rowCount sampleSession). by vm_compute. Defined.

Lemma reachable_text_has_file_witness : is_Some (file (ui sampleWorld)).
Proof.
  apply (reachable_text_has_file sampleSession); [by vm_compute|].
  left. by vm_compute.
Defined.

Lemma reachable_chat_has_report_witness :
  is_Some (dashboardData (ui sampleWorld)).
Proof.
  apply (reachable_chat_has_report sampleSession); [by vm_compute|].
  left. by vm_compute.
Defined.


Lemma reachable_turns_witness :
  (turnsOf assistant (chatMessages (ui sampleWorld)) + chats sampleWorld
   ≤ turnsOf user (chatMessages (ui sampleWorld)))%nat.
Proof. apply (reachable_turns sampleSession). by vm_compute. Defined.

